(** * toolbox: the [enter] command (src/cmd/enter.go)

    A shallow embedding of [enter] and [enterContainer].  The two Go
    functions talk to many collaborators (podman, the utils package, the
    terminal); those calls are threaded through a small state-and-return
    monad whose state records every call and every line printed, so that
    statements such as "no container is created" or "the stamp is polled
    after k seconds" are statements about the recorded trace. *)

From Stdlib Require Import ZArith List String Ascii Bool Lia DecimalString.
Import ListNotations.

Open Scope string_scope.
Open Scope Z_scope.

(** ** Strings and formatting *)

Definition nl : string := String (ascii_of_nat 10) EmptyString.
Definition esc : string := String (ascii_of_nat 27) EmptyString.
Definition dquote : string := String (ascii_of_nat 34) EmptyString.
Definition backslash : string := String (ascii_of_nat 92) EmptyString.

(** The [%d] verb of the fmt package. *)
Definition fmt_d (z : Z) : string := NilZero.string_of_int (Z.to_int z).

(** ** Go values *)

(** A Go [error]: all the code ever looks at is whether it is nil, and the
    message is what the caller prints.  A nilable error is [option error]. *)
Inductive error : Type :=
| errorString (msg : string).

Definition Error (e : error) : string :=
  match e with errorString msg => msg end.

(** [errors.New] and [fmt.Errorf] (the latter after formatting). *)
Definition errors_New (msg : string) : error := errorString msg.

(** The element type of [listContainers]'s result.  Its declaration lives
    in another file of package cmd; [enterContainer] reads [Names] only. *)
Record toolboxContainer : Type := { Names : list string }.

(** [os/user.User], as far as [enterContainer] reads it. *)
Record User : Type := { Username : string; Uid : string }.

(** ** The collaborators

    Every function and package-level variable that enter.go uses but does
    not define.  A Go result [(T, error)] is a pair [T * option error].
    [PathExists] is the only collaborator asked the same question twice;
    its answer depends on how many seconds have been slept so far. *)
Record World : Type := {
  (* package-level state of package cmd *)
  executableBase : string;
  currentUser : User;
  workingDirectory : string;
  rootFlags_assumeYes : bool;
  enterFlags_container : string;
  enterFlags_release : string;
  (* package cmd, other files *)
  listContainers : list toolboxContainer * option error;
  createContainer : string -> string -> string -> bool -> option error;
  callFlatpakSessionHelper : string -> option error;
  startContainer : string -> option error;
  getEntryPointAndPID : string -> string * Z * option error;
  isCommandPresent : string -> string -> bool * option error;
  isPathPresent : string -> string -> bool * option error;
  (* package utils *)
  IsInsideContainer : bool;
  IsInsideToolboxContainer : bool;
  ForwardToHost : Z * option error;
  IsContainerNameValid : string -> bool * option error;
  ContainerNameRegexp : string;
  ParseRelease : string -> string * option error;
  CreateErrorInvalidRelease : string -> error;
  CreateErrorContainerNotFound : string -> string -> error;
  ResolveContainerAndImageNames :
    string -> string -> string -> string * string * string * option error;
  GetHostID : string * option error;
  GetHostVariantID : string * option error;
  AskForConfirmation : string -> bool;
  GetRuntimeDirectory : User -> string * option error;
  PathExists : nat -> string -> bool;
  GetEnvOptionsForPreservedVariables : list string;
  (* package podman *)
  ContainerExists : string -> bool * option error;
  CheckVersion : string -> bool;
  LogLevel_String : string;
  (* package shell *)
  RunWithExitCode : string -> list string -> Z * option error;
  (* package os *)
  Getenv : string -> string
}.

(** ** What a run leaves behind *)

Inductive Event : Type :=
| Debug (msg : string)                       (* logrus.Debug, logrus.Debugf *)
| Stdout (text : string)                     (* fmt.Printf *)
| Stderr (text : string)                     (* fmt.Fprintf(os.Stderr, ...) *)
| CallForwardToHost
| CallContainerExists (container : string)
| CallListContainers
| CallAskForConfirmation (prompt : string)
| CallCreateContainer (container image release : string) (showCommandToEnter : bool)
| CallFlatpakSessionHelper (container : string)
| CallStartContainer (container : string)
| CallGetEntryPointAndPID (container : string)
| CallPathExists (path : string)
| Sleep (seconds : Z)
| CallIsCommandPresent (container command : string)
| CallCheckVersion (version : string)
| CallRunWithExitCode (name : string) (args : list string)
| CallIsPathPresent (container path : string).

Record State : Type := {
  clock : nat;          (* seconds slept so far *)
  trace : list Event    (* oldest first *)
}.

Definition record (e : Event) (st : State) : State :=
  {| clock := clock st; trace := trace st ++ [e] |}.

Definition records (es : list Event) (st : State) : State :=
  {| clock := clock st; trace := trace st ++ es |}.

(** ** The monad: state, early return, panic *)

Inductive Result (A : Type) : Type :=
| Val (a : A)                  (* execution goes on with [a] *)
| Return (err : option error)  (* the Go function returned [err] *)
| Panic (msg : string)         (* a Go panic *)
| OutOfFuel.                   (* the model's loop bound was hit *)

Arguments Val {A} a.
Arguments Return {A} err.
Arguments Panic {A} msg.
Arguments OutOfFuel {A}.

Definition M (A : Type) : Type := State -> Result A * State.

Definition ret {A : Type} (a : A) : M A := fun st => (Val a, st).

Definition bind {A B : Type} (m : M A) (k : A -> M B) : M B :=
  fun st =>
    match m st with
    | (Val a, st') => k a st'
    | (Return err, st') => (Return err, st')
    | (Panic msg, st') => (Panic msg, st')
    | (OutOfFuel, st') => (OutOfFuel, st')
    end.

Definition return_ {A : Type} (err : option error) : M A :=
  fun st => (Return err, st).

Definition panic {A : Type} (msg : string) : M A :=
  fun st => (Panic msg, st).

Definition emit (e : Event) : M unit := fun st => (Val tt, record e st).

Definition call {A : Type} (e : Event) (answer : A) : M A :=
  fun st => (Val answer, record e st).

Definition sleep (seconds : Z) : M unit :=
  fun st => (Val tt, {| clock := clock st + Z.to_nat seconds;
                        trace := trace st ++ [Sleep seconds] |}).

Definition getClock : M nat := fun st => (Val (clock st), st).

Declare Scope go_scope.
Delimit Scope go_scope with go.
Notation "x <- m ;; k" := (bind m (fun x => k))
  (at level 61, m at next level, right associativity) : go_scope.
Notation "m ;; k" := (bind m (fun _ => k))
  (at level 61, right associativity) : go_scope.
Open Scope go_scope.

(** [s[0]] on a slice: a run-time panic when the slice is empty. *)
Definition index0 (s : list string) : M string :=
  match s with
  | x :: _ => ret x
  | [] => panic "runtime error: index out of range [0] with length 0"
  end.

Definition nonEmpty (s : string) : bool := negb (s =? "")%string.

(** ** enterContainer *)

Section EnterContainer.

Variable w : World.

(** Lines 164-232: does the container exist, and what to do when it does
    not.  Yields the name of the container that will be entered. *)
Definition existencePolicy (container : string) (defaultContainer : bool)
    (image release : string) (pedantic : bool) : M string :=
  (if negb pedantic then
     if (image =? "")%string then panic "image not specified"
     else if (release =? "")%string then panic "release not specified"
     else ret tt
   else ret tt) ;;
  emit (Debug ("Checking if container " ++ container ++ " exists")) ;;
  r <- call (CallContainerExists container) (ContainerExists w container) ;;
  match snd r with
  | None => ret container
  | Some _ =>
    emit (Debug ("Container " ++ container ++ " not found")) ;;
    if pedantic then
      return_ (Some (CreateErrorContainerNotFound w container (executableBase w)))
    else
      l <- call CallListContainers (listContainers w) ;;
      let containers := fst l in
      match snd l with
      | Some _ =>
        return_ (Some (CreateErrorContainerNotFound w container (executableBase w)))
      | None =>
        let containersCount := Z.of_nat (List.length containers) in
        emit (Debug ("Found " ++ fmt_d containersCount ++ " containers")) ;;
        if containersCount =? 0 then
          let shouldCreateContainer := false in
          let promptForCreate := true in
          let shouldCreateContainer :=
            if rootFlags_assumeYes w then true else shouldCreateContainer in
          let promptForCreate :=
            if rootFlags_assumeYes w then false else promptForCreate in
          shouldCreateContainer <-
            (if promptForCreate then
               let prompt := "No toolbox containers found. Create now? [y/N]" in
               call (CallAskForConfirmation prompt) (AskForConfirmation w prompt)
             else ret shouldCreateContainer) ;;
          if negb shouldCreateContainer then
            emit (Stdout ("A container can be created later with the 'create' command." ++ nl)) ;;
            emit (Stdout ("Run '" ++ executableBase w ++ " --help' for usage." ++ nl)) ;;
            return_ None
          else
            err <- call (CallCreateContainer container image release false)
                        (createContainer w container image release false) ;;
            match err with
            | Some e => return_ (Some e)
            | None => ret container
            end
        else if (containersCount =? 1) && defaultContainer then
          emit (Stderr ("Error: container " ++ container ++ " not found" ++ nl)) ;;
          match containers with
          | [] => panic "runtime error: index out of range [0] with length 0"
          | c0 :: _ =>
            container <- index0 (Names c0) ;;
            emit (Stderr ("Entering container " ++ container ++ " instead." ++ nl)) ;;
            emit (Stderr ("Use the 'create' command to create a different toolbox." ++ nl)) ;;
            emit (Stderr ("Run '" ++ executableBase w ++ " --help' for usage." ++ nl)) ;;
            ret container
          end
        else
          return_ (Some (errors_New
            ("container " ++ container ++ " not found" ++ nl
             ++ "Use the '--container' option to select a toolbox." ++ nl
             ++ "Run '" ++ executableBase w ++ " --help' for usage.")))
      end
  end.

(** Lines 234-259: session helper, start, and the entry point's name and
    PID.  Yields the PID. *)
Definition startAndCheckEntryPoint (container : string) : M Z :=
  err <- call (CallFlatpakSessionHelper container) (callFlatpakSessionHelper w container) ;;
  match err with
  | Some e => return_ (Some e)
  | None =>
    emit (Debug ("Starting container " ++ container)) ;;
    err <- call (CallStartContainer container) (startContainer w container) ;;
    match err with
    | Some e => return_ (Some e)
    | None =>
      r <- call (CallGetEntryPointAndPID container) (getEntryPointAndPID w container) ;;
      let entryPoint := fst (fst r) in
      let entryPointPID := snd (fst r) in
      match snd r with
      | Some e => return_ (Some e)
      | None =>
        if negb (entryPoint =? "toolbox")%string then
          return_ (Some (errors_New
            ("container " ++ container ++ " is too old and no longer supported " ++ nl
             ++ "Recreate it with Toolbox version 0.0.17 or newer." ++ nl)))
        else if entryPointPID <=? 0 then
          return_ (Some (errors_New ("invalid entry point PID of container " ++ container)))
        else ret entryPointPID
      end
    end
  end.

(** Lines 273-279: [for i := 0; !utils.PathExists(initializedStamp); i++].
    The Go loop has no bound of its own; [fuel] bounds the number of times
    the loop condition is evaluated. *)
Fixpoint pollInitializedStamp (fuel : nat) (container initializedStamp : string)
    (initializedTimeout i : Z) : M unit :=
  match fuel with
  | O => fun st => (OutOfFuel, st)
  | S fuel' =>
    now <- getClock ;;
    present <- call (CallPathExists initializedStamp) (PathExists w now initializedStamp) ;;
    if present then ret tt
    else if i =? initializedTimeout then
      return_ (Some (errors_New ("failed to initialize container " ++ container)))
    else
      sleep 1 ;;
      pollInitializedStamp fuel' container initializedStamp initializedTimeout (i + 1)
  end.

(** Lines 261-281. *)
Definition waitForInitialization (fuel : nat) (container : string)
    (entryPointPID : Z) : M unit :=
  emit (Debug ("Waiting for container " ++ container ++ " to finish initializing")) ;;
  match GetRuntimeDirectory w (currentUser w) with
  | (_, Some e) => return_ (Some e)
  | (toolboxRuntimeDirectory, None) =>
    let initializedStamp :=
      toolboxRuntimeDirectory ++ "/container-initialized-" ++ fmt_d entryPointPID in
    emit (Debug ("Checking if initialization stamp " ++ initializedStamp ++ " exists")) ;;
    let initializedTimeout := 25 in
    pollInitializedStamp fuel container initializedStamp initializedTimeout 0 ;;
    emit (Debug ("Container " ++ container ++ " is initialized"))
  end.

(** Lines 283-295.  Yields the command that will be run. *)
Definition checkCommand (container : string) (command : list string)
    (fallbackToBash : bool) : M (list string) :=
  command0 <- index0 command ;;
  r <- call (CallIsCommandPresent container command0) (isCommandPresent w container command0) ;;
  match snd r with
  | None => ret command
  | Some _ =>
    if fallbackToBash then
      emit (Stderr ("Error: command " ++ command0 ++ " not found in container "
                    ++ container ++ nl)) ;;
      emit (Stderr ("Using /bin/bash instead." ++ nl)) ;;
      ret ["/bin/bash"; "-l"]
    else
      return_ (Some (errors_New
        ("command " ++ command0 ++ " not found in container " ++ container)))
  end.

(** Lines 297-330: the argument vector of [podman exec]. *)
Definition buildExecArgs (container : string) (command : list string)
    : M (list string) :=
  emit (Debug "Checking if 'podman exec' supports disabling the detach keys") ;;
  let detachKeys : list string := [] in
  supported <- call (CallCheckVersion "1.8.1") (CheckVersion w "1.8.1") ;;
  detachKeys <-
    (if supported then
       emit (Debug "'podman exec' supports disabling the detach keys") ;;
       ret ["--detach-keys"; ""]
     else ret detachKeys) ;;
  let envOptions := GetEnvOptionsForPreservedVariables w in
  let logLevelString := LogLevel_String w in
  let execArgs := ["--log-level"; logLevelString; "exec"] in
  let execArgs := (execArgs ++ detachKeys)%list in
  let execArgs := (execArgs ++
    ["--interactive";
     "--tty";
     "--user"; Username (currentUser w);
     "--workdir"; workingDirectory w])%list in
  let execArgs := (execArgs ++ envOptions)%list in
  let execArgs := (execArgs ++
    [container;
     "capsh"; "--caps="; "--"; "-c"; ("exec " ++ dquote ++ "$@" ++ dquote)%string; "/bin/sh"])%list in
  let execArgs := (execArgs ++ command)%list in
  ret execArgs.

Fixpoint debugEach (args : list string) : M unit :=
  match args with
  | [] => ret tt
  | arg :: rest => emit (Debug arg) ;; debugEach rest
  end.

(** Lines 332-346: run [podman exec] between the two escape sequences. *)
Definition runExec (container : string) (execArgs : list string)
    (emitEscapeSequence : bool) : M (Z * option error) :=
  (if emitEscapeSequence then
     emit (Stdout (esc ++ "]777;container;push;" ++ container ++ ";toolbox;"
                   ++ Uid (currentUser w) ++ esc ++ backslash))
   else ret tt) ;;
  emit (Debug ("Running in container " ++ container ++ ":")) ;;
  emit (Debug "podman") ;;
  debugEach execArgs ;;
  r <- call (CallRunWithExitCode "podman" execArgs) (RunWithExitCode w "podman" execArgs) ;;
  (if emitEscapeSequence then
     emit (Stdout (esc ++ "]777;container;pop;;;" ++ Uid (currentUser w) ++ esc ++ backslash))
   else ret tt) ;;
  ret r.

(** Lines 348-371: the [switch exitCode] and the final return. *)
Definition classifyExitCode (container : string) (command : list string)
    (exitCode : Z) (err : option error) : M unit :=
  err <-
    (if exitCode =? 0 then
       match err with
       | Some _ => panic "unexpected error: 'podman exec' finished successfully"
       | None => ret err
       end
     else if exitCode =? 125 then
       ret (Some (errors_New
         ("failed to invoke 'podman exec' in container " ++ container)))
     else if exitCode =? 126 then
       command0 <- index0 command ;;
       ret (Some (errors_New
         ("failed to invoke command " ++ command0 ++ " in container " ++ container)))
     else if exitCode =? 127 then
       r <- call (CallIsPathPresent container (workingDirectory w))
                 (isPathPresent w container (workingDirectory w)) ;;
       let pathPresent := fst r in
       if negb pathPresent then
         ret (Some (errors_New
           ("directory " ++ workingDirectory w ++ " not found in container " ++ container)))
       else
         command0 <- index0 command ;;
         ret (Some (errors_New
           ("command " ++ command0 ++ " not found in container " ++ container)))
     else ret None) ;;
  match err with
  | Some e => return_ (Some e)
  | None => return_ None
  end.

(** Lines 234-372: everything after the container to enter is settled. *)
Definition enterResolved (fuel : nat) (container : string) (command : list string)
    (emitEscapeSequence fallbackToBash : bool) : M unit :=
  entryPointPID <- startAndCheckEntryPoint container ;;
  waitForInitialization fuel container entryPointPID ;;
  command <- checkCommand container command fallbackToBash ;;
  execArgs <- buildExecArgs container command ;;
  r <- runExec container execArgs emitEscapeSequence ;;
  classifyExitCode container command (fst r) (snd r).

(** The loop condition is evaluated at most 26 times (see
    [pollInitializedStamp_fuel]). *)
Definition pollFuel : nat := 26.

Definition enterContainer (container : string) (defaultContainer : bool)
    (image release : string) (command : list string)
    (emitEscapeSequence fallbackToBash pedantic : bool) : M unit :=
  container <- existencePolicy container defaultContainer image release pedantic ;;
  enterResolved pollFuel container command emitEscapeSequence fallbackToBash.

(** ** enter (lines 65-156) *)

Definition enter (args : list string) : M unit :=
  if IsInsideContainer w then
    if negb (IsInsideToolboxContainer w) then
      return_ (Some (errors_New "this is not a toolbox container"))
    else
      r <- call CallForwardToHost (ForwardToHost w) ;;
      match snd r with
      | Some e => return_ (Some e)
      | None => return_ None
      end
  else
    let container := "" in
    let containerArg := "" in
    let nonDefaultContainer := false in
    let '(container, containerArg) :=
      match args with
      | arg0 :: _ => (arg0, "CONTAINER")
      | [] =>
        if nonEmpty (enterFlags_container w)
        then (enterFlags_container w, "--container")
        else (container, containerArg)
      end in
    nonDefaultContainer <-
      (if nonEmpty container then
         let nonDefaultContainer := true in
         match snd (IsContainerNameValid w container) with
         | Some _ =>
           return_ (Some (errors_New
             ("invalid argument for '" ++ containerArg ++ "'" ++ nl
              ++ "Container names must match '" ++ ContainerNameRegexp w ++ "'" ++ nl
              ++ "Run '" ++ executableBase w ++ " --help' for usage.")))
         | None => ret nonDefaultContainer
         end
       else ret nonDefaultContainer) ;;
    let release := "" in
    r <-
      (if nonEmpty (enterFlags_release w) then
         let nonDefaultContainer := true in
         match ParseRelease w (enterFlags_release w) with
         | (_, Some _) => return_ (Some (CreateErrorInvalidRelease w (executableBase w)))
         | (release, None) => ret (nonDefaultContainer, release)
         end
       else ret (nonDefaultContainer, release)) ;;
    let nonDefaultContainer := fst r in
    let release := snd r in
    match ResolveContainerAndImageNames w container "" release with
    | (_, Some e) => return_ (Some e)
    | (container, image, release, None) =>
      let userShell := Getenv w "SHELL" in
      if (userShell =? "")%string then
        return_ (Some (errors_New "failed to get the current user's default shell"))
      else
        let command := [userShell; "-l"] in
        match GetHostID w with
        | (_, Some _) => return_ (Some (errors_New "failed to get the host ID"))
        | (hostID, None) =>
          match GetHostVariantID w with
          | (_, Some _) => return_ (Some (errors_New "failed to get the host VARIANT_ID"))
          | (hostVariantID, None) =>
            let emitEscapeSequence :=
              (hostID =? "fedora")%string
              && ((hostVariantID =? "silverblue")%string
                  || (hostVariantID =? "workstation")%string) in
            enterContainer container (negb nonDefaultContainer) image release
                           command emitEscapeSequence true false
          end
        end
    end.

End EnterContainer.

(** ** Reading a trace *)

Definition isCreate (e : Event) : bool :=
  match e with
  | CallCreateContainer _ _ _ _ => true
  | _ => false
  end.

Definition isPrompt (e : Event) : bool :=
  match e with
  | CallAskForConfirmation _ => true
  | _ => false
  end.

Definition isCreateOrPrompt (e : Event) : bool := isCreate e || isPrompt e.

Definition isPoll (e : Event) : bool :=
  match e with
  | CallPathExists _ => true
  | _ => false
  end.

Definition isSleep (e : Event) : bool :=
  match e with
  | Sleep _ => true
  | _ => false
  end.

(** Calls that reach the container engine (podman). *)
Definition isEngineCall (e : Event) : bool :=
  match e with
  | CallContainerExists _ | CallListContainers | CallCreateContainer _ _ _ _
  | CallStartContainer _ | CallGetEntryPointAndPID _ | CallIsCommandPresent _ _
  | CallCheckVersion _ | CallRunWithExitCode _ _ | CallIsPathPresent _ _ => true
  | _ => false
  end.

Definition count (p : Event -> bool) (es : list Event) : nat :=
  List.length (filter p es).

(** [n] rounds of "look for the stamp, then sleep one second". *)
Fixpoint pollRounds (initializedStamp : string) (n : nat) : list Event :=
  match n with
  | O => []
  | S n' => CallPathExists initializedStamp :: Sleep 1 :: pollRounds initializedStamp n'
  end.

(** What the caller of [enterContainer] can tell from its result: a nil
    error is success (exit status zero), anything else is a failure. *)
Definition reportsFailure {A : Type} (r : Result A) : bool :=
  match r with
  | Return (Some _) => true
  | Panic _ => true
  | _ => false
  end.

(** The container name the command line supplied: the positional argument
    when there is one, else the [--container] option. *)
Definition suppliedName (w : World) (args : list string) : string :=
  match args with
  | arg0 :: _ => arg0
  | [] => enterFlags_container w
  end.

Definition suppliedNameArg (args : list string) : string :=
  match args with
  | _ :: _ => "CONTAINER"
  | [] => "--container"
  end.

(** A monadic action all of whose recorded events satisfy [P]. *)
Definition emitsOnly {A : Type} (P : Event -> Prop) (m : M A) : Prop :=
  forall st, exists es,
    trace (snd (m st)) = (trace st ++ es)%list /\ Forall P es.

(** ** Vocabulary for the statements below *)

(** Events other than a request for confirmation or a container creation. *)
Definition quiet (e : Event) : Prop := isCreateOrPrompt e = false.

Section Vocabulary.

Variable w : World.

(** The events every run records before it knows how many containers
    there are. *)
Definition missingPrefix (container : string) : list Event :=
  [Debug ("Checking if container " ++ container ++ " exists");
   CallContainerExists container;
   Debug ("Container " ++ container ++ " not found");
   CallListContainers].

Definition foundN (n : nat) : Event :=
  Debug ("Found " ++ fmt_d (Z.of_nat n) ++ " containers").

Definition createPrompt : string := "No toolbox containers found. Create now? [y/N]".

(** The error of lines 224-230. *)
Definition errSelectContainer (container : string) : error :=
  errors_New ("container " ++ container ++ " not found" ++ nl
              ++ "Use the '--container' option to select a toolbox." ++ nl
              ++ "Run '" ++ executableBase w ++ " --help' for usage.").

(** The diagnostic of lines 217-222. *)
Definition substitutionNotice (container name : string) : list Event :=
  [Stderr ("Error: container " ++ container ++ " not found" ++ nl);
   Stderr ("Entering container " ++ name ++ " instead." ++ nl);
   Stderr ("Use the 'create' command to create a different toolbox." ++ nl);
   Stderr ("Run '" ++ executableBase w ++ " --help' for usage." ++ nl)].

(** The message of lines 208-209. *)
Definition declinedNotice : list Event :=
  [Stdout ("A container can be created later with the 'create' command." ++ nl);
   Stdout ("Run '" ++ executableBase w ++ " --help' for usage." ++ nl)].

End Vocabulary.

(** An action that never hits the model's loop bound. *)
Definition total {A : Type} (m : M A) : Prop :=
  forall st, fst (m st) <> OutOfFuel.

(** ** A concrete host, for examples *)

Module Sample.

Definition alice : User := {| Username := "alice"; Uid := "1000" |}.

Definition noError {A : Type} (a : A) : A * option error := (a, None).

(** A Fedora Silverblue host on which everything that is not a parameter
    below succeeds. *)
Definition host (assumeYes : bool)
    (containers : list toolboxContainer * option error)
    (found : string -> bool)
    (confirm : bool)
    (entryPoint : string * Z * option error)
    (stamp : nat -> bool)
    (insideContainer : bool)
    (validName : string -> bool)
    (exec : Z * option error)
    (pathPresent : bool)
    (newPodman : bool) : World :=
  {| executableBase := "toolbox";
     currentUser := alice;
     workingDirectory := "/home/alice";
     rootFlags_assumeYes := assumeYes;
     enterFlags_container := "";
     enterFlags_release := "";
     listContainers := containers;
     createContainer := fun _ _ _ _ => None;
     callFlatpakSessionHelper := fun _ => None;
     startContainer := fun _ => None;
     getEntryPointAndPID := fun _ => entryPoint;
     isCommandPresent := fun _ _ => noError true;
     isPathPresent := fun _ _ => noError pathPresent;
     IsInsideContainer := insideContainer;
     IsInsideToolboxContainer := insideContainer;
     ForwardToHost := noError 0;
     IsContainerNameValid := fun name =>
       if validName name then noError true
       else (false, Some (errors_New "invalid container name"));
     ContainerNameRegexp := "[a-zA-Z0-9][a-zA-Z0-9_.-]*";
     ParseRelease := fun r => noError r;
     CreateErrorInvalidRelease := fun _ => errors_New "invalid release";
     CreateErrorContainerNotFound := fun c _ =>
       errors_New ("container " ++ c ++ " not found");
     ResolveContainerAndImageNames := fun c _ r =>
       (if (c =? "")%string then "fedora-toolbox-33" else c,
        "fedora-toolbox:33",
        if (r =? "")%string then "33" else r,
        None);
     GetHostID := noError "fedora";
     GetHostVariantID := noError "silverblue";
     AskForConfirmation := fun _ => confirm;
     GetRuntimeDirectory := fun _ => noError "/run/user/1000/toolbox";
     PathExists := fun now _ => stamp now;
     GetEnvOptionsForPreservedVariables := ["--env=TERM=xterm"];
     ContainerExists := fun c =>
       if found c then noError true
       else (false, Some (errors_New "no such container"));
     CheckVersion := fun _ => newPodman;
     LogLevel_String := "error";
     RunWithExitCode := fun _ _ => exec;
     Getenv := fun _ => "/bin/zsh" |}.

Definition start : State := {| clock := 0; trace := [] |}.

Definition dev : toolboxContainer := {| Names := ["dev"] |}.
Definition scratch : toolboxContainer := {| Names := ["scratch"] |}.

Definition okEntryPoint : string * Z * option error := ("toolbox", 4242, None).

(** No container at all, [--assume-yes] given. *)
Definition emptyHostAssumeYes : World :=
  host true ([], None) (fun _ => false) false okEntryPoint (fun _ => true)
       false (fun _ => true) (noError 0) true true.

(** No container at all, the user answers "no". *)
Definition emptyHostDeclined : World :=
  host false ([], None) (fun _ => false) false okEntryPoint (fun _ => true)
       false (fun _ => true) (noError 0) true true.

(** The containers in [cs] exist; the default one does not. *)
Definition hostWith (cs : list toolboxContainer) : World :=
  host false (cs, None) (fun _ => false) false okEntryPoint (fun _ => true)
       false (fun _ => true) (noError 0) true true.

(** Listing the containers fails. *)
Definition hostListFails : World :=
  host false ([], Some (errors_New "podman ps failed")) (fun _ => false) false
       okEntryPoint (fun _ => true) false (fun _ => true) (noError 0) true true.

(** The container exists; its stamp shows up once [ready now] holds. *)
Definition hostReadyWhen (ready : nat -> bool) : World :=
  host false ([dev], None) (fun _ => true) false okEntryPoint ready
       false (fun _ => true) (noError 0) true true.

(** The container exists with the given entry point. *)
Definition hostEntryPoint (entryPoint : string) (pid : Z) : World :=
  host false ([dev], None) (fun _ => true) false (entryPoint, pid, None)
       (fun _ => true) false (fun _ => true) (noError 0) true true.

(** [podman exec] ends with the given exit code and error. *)
Definition hostExec (exec : Z * option error) (pathPresent : bool) : World :=
  host false ([dev], None) (fun _ => true) false okEntryPoint (fun _ => true)
       false (fun _ => true) exec pathPresent true.

(** Rejects every container name; [inside] tells whether the command runs
    inside a toolbox container. *)
Definition hostStrictNames (inside : bool) : World :=
  host false ([dev], None) (fun _ => true) false okEntryPoint (fun _ => true)
       inside (fun _ => false) (noError 0) true true.

End Sample.

(** ** enterHelp (lines 374-393)

    [utils.ShowManual] is one more collaborator; like the other questions
    put to package utils it leaves nothing in the trace.  The function has no
    result: every [return] in it is the end of a branch. *)

Section EnterHelp.

Variable w : World.
Variable ShowManual : string -> option error.

Definition enterHelp (args : list string) : M unit :=
  if IsInsideContainer w then
    if negb (IsInsideToolboxContainer w) then
      emit (Stderr ("Error: this is not a toolbox container" ++ nl))
    else
      r <- call CallForwardToHost (ForwardToHost w) ;;
      match snd r with
      | Some err => emit (Stderr ("Error: " ++ Error err ++ nl))
      | None => ret tt
      end
  else
    match ShowManual "toolbox-enter" with
    | Some err => emit (Stderr ("Error: " ++ Error err ++ nl))
    | None => ret tt
    end.

End EnterHelp.

(** ** More vocabulary *)

Definition isList (e : Event) : bool :=
  match e with
  | CallListContainers => true
  | _ => false
  end.

Definition isStart (e : Event) : bool :=
  match e with
  | CallStartContainer _ => true
  | _ => false
  end.

Definition isExec (e : Event) : bool :=
  match e with
  | CallRunWithExitCode _ _ => true
  | _ => false
  end.

Definition isStdout (e : Event) : bool :=
  match e with
  | Stdout _ => true
  | _ => false
  end.

(** The events the part of [enterContainer] from line 234 on can record. *)
Definition afterPolicy (e : Event) : bool :=
  match e with
  | Debug _ | Stdout _ | Stderr _ | CallFlatpakSessionHelper _
  | CallStartContainer _ | CallGetEntryPointAndPID _ | CallPathExists _
  | Sleep _ | CallIsCommandPresent _ _ | CallCheckVersion _
  | CallRunWithExitCode _ _ | CallIsPathPresent _ _ => true
  | _ => false
  end.

(** An action that records at most [n] events of the kind [p]. *)
Definition emitsAtMost {A : Type} (p : Event -> bool) (n : nat) (m : M A) : Prop :=
  forall st, exists es,
    trace (snd (m st)) = (trace st ++ es)%list /\ (count p es <= n)%nat.

(** An action whose every panic carries a message in [P]. *)
Definition panicsOnly {A : Type} (P : string -> Prop) (m : M A) : Prop :=
  forall st msg, fst (m st) = Panic msg -> P msg.

(** An action whose every value satisfies [Q]. *)
Definition yields {A : Type} (Q : A -> Prop) (m : M A) : Prop :=
  forall st a, fst (m st) = Val a -> Q a.

Definition indexPanic : string := "runtime error: index out of range [0] with length 0".
Definition execPanic : string := "unexpected error: 'podman exec' finished successfully".

Definition stampPath (dir : string) (entryPointPID : Z) : string :=
  dir ++ "/container-initialized-" ++ fmt_d entryPointPID.

Definition errTimeout (container : string) : error :=
  errors_New ("failed to initialize container " ++ container).

Section MoreVocabulary.

Variable w : World.

Definition pushSequence (container : string) : string :=
  esc ++ "]777;container;push;" ++ container ++ ";toolbox;"
  ++ Uid (currentUser w) ++ esc ++ backslash.

Definition popSequence : string :=
  esc ++ "]777;container;pop;;;" ++ Uid (currentUser w) ++ esc ++ backslash.

Definition existsPrefix (container : string) : list Event :=
  [Debug ("Checking if container " ++ container ++ " exists");
   CallContainerExists container].

Definition waitNotice (container stamp : string) : list Event :=
  [Debug ("Waiting for container " ++ container ++ " to finish initializing");
   Debug ("Checking if initialization stamp " ++ stamp ++ " exists")].

Definition startPrefix (container : string) : list Event :=
  [CallFlatpakSessionHelper container;
   Debug ("Starting container " ++ container);
   CallStartContainer container].

(** The one panic the code raises on purpose after the policy: exit code 0
    together with an error. *)
Definition execPanicOnly (msg : string) : Prop :=
  msg = execPanic
  /\ exists execArgs e, RunWithExitCode w "podman" execArgs = (0, Some e).

End MoreVocabulary.

(** ** More sample hosts *)

Module Faulty.

(** [base] with some of its collaborators replaced. *)
Definition tweak (base : World)
    (createErr helperErr startErr : option error)
    (runtimeDir : string * option error)
    (commandPresent : bool * option error)
    (shell containerFlag releaseFlag : string)
    (parse : string -> string * option error)
    (hostID : string * option error)
    (insideToolbox confirm : bool) : World :=
  {| executableBase := executableBase base;
     currentUser := currentUser base;
     workingDirectory := workingDirectory base;
     rootFlags_assumeYes := rootFlags_assumeYes base;
     enterFlags_container := containerFlag;
     enterFlags_release := releaseFlag;
     listContainers := listContainers base;
     createContainer := fun _ _ _ _ => createErr;
     callFlatpakSessionHelper := fun _ => helperErr;
     startContainer := fun _ => startErr;
     getEntryPointAndPID := getEntryPointAndPID base;
     isCommandPresent := fun _ _ => commandPresent;
     isPathPresent := isPathPresent base;
     IsInsideContainer := IsInsideContainer base;
     IsInsideToolboxContainer := insideToolbox;
     ForwardToHost := ForwardToHost base;
     IsContainerNameValid := IsContainerNameValid base;
     ContainerNameRegexp := ContainerNameRegexp base;
     ParseRelease := parse;
     CreateErrorInvalidRelease := CreateErrorInvalidRelease base;
     CreateErrorContainerNotFound := CreateErrorContainerNotFound base;
     ResolveContainerAndImageNames := ResolveContainerAndImageNames base;
     GetHostID := hostID;
     GetHostVariantID := GetHostVariantID base;
     AskForConfirmation := fun _ => confirm;
     GetRuntimeDirectory := fun _ => runtimeDir;
     PathExists := PathExists base;
     GetEnvOptionsForPreservedVariables := GetEnvOptionsForPreservedVariables base;
     ContainerExists := ContainerExists base;
     CheckVersion := CheckVersion base;
     LogLevel_String := LogLevel_String base;
     RunWithExitCode := RunWithExitCode base;
     Getenv := fun _ => shell |}.

Definition runtimeDir : string * option error := ("/run/user/1000/toolbox", None).

Definition parseOK (r : string) : string * option error := (r, None).

(** [base] with nothing replaced but the answers given here. *)
Definition plain (base : World) : World :=
  tweak base None None None runtimeDir (true, None) "/bin/zsh" "" "" parseOK
        ("fedora", None) true false.

Definition boom : error := errors_New "boom".

(** No container at all, the user answers "yes". *)
Definition answersYes : World :=
  tweak Sample.emptyHostDeclined None None None runtimeDir (true, None) "/bin/zsh"
        "" "" parseOK ("fedora", None) true true.

(** No container at all, [--assume-yes], and the creation fails. *)
Definition createFails : World :=
  tweak Sample.emptyHostAssumeYes (Some boom) None None runtimeDir (true, None)
        "/bin/zsh" "" "" parseOK ("fedora", None) true false.

(** The container exists and is ready at once. *)
Definition ready : World := Sample.hostReadyWhen (fun _ => true).

Definition helperFails : World :=
  tweak ready None (Some boom) None runtimeDir (true, None) "/bin/zsh" "" ""
        parseOK ("fedora", None) true false.

Definition noRuntimeDir : World :=
  tweak ready None None None ("", Some boom) (true, None) "/bin/zsh" "" ""
        parseOK ("fedora", None) true false.

(** The shell is not installed in the container. *)
Definition commandMissing : World :=
  tweak ready None None None runtimeDir (false, Some boom) "/bin/zsh" "" ""
        parseOK ("fedora", None) true false.

(** [--release f33x], which the parser rejects. *)
Definition badRelease : World :=
  tweak (Sample.hostWith [Sample.dev]) None None None runtimeDir (true, None)
        "/bin/zsh" "" "f33x" (fun _ => ("", Some boom)) ("fedora", None) true false.

(** [$SHELL] is not set. *)
Definition noShell : World :=
  tweak (Sample.hostWith [Sample.dev]) None None None runtimeDir (true, None)
        "" "" "" parseOK ("fedora", None) true false.

(** Inside a container that is not a toolbox. *)
Definition insideOther : World :=
  tweak (Sample.hostStrictNames true) None None None runtimeDir (true, None)
        "/bin/zsh" "" "" parseOK ("fedora", None) false false.

Definition noManual (page : string) : option error :=
  Some (errors_New ("no manual entry for " ++ page)).

(** [base] with another name validator. *)
Definition withValidator (base : World)
    (validator : string -> bool * option error) : World :=
  {| executableBase := executableBase base;
     currentUser := currentUser base;
     workingDirectory := workingDirectory base;
     rootFlags_assumeYes := rootFlags_assumeYes base;
     enterFlags_container := enterFlags_container base;
     enterFlags_release := enterFlags_release base;
     listContainers := listContainers base;
     createContainer := createContainer base;
     callFlatpakSessionHelper := callFlatpakSessionHelper base;
     startContainer := startContainer base;
     getEntryPointAndPID := getEntryPointAndPID base;
     isCommandPresent := isCommandPresent base;
     isPathPresent := isPathPresent base;
     IsInsideContainer := IsInsideContainer base;
     IsInsideToolboxContainer := IsInsideToolboxContainer base;
     ForwardToHost := ForwardToHost base;
     IsContainerNameValid := validator;
     ContainerNameRegexp := ContainerNameRegexp base;
     ParseRelease := ParseRelease base;
     CreateErrorInvalidRelease := CreateErrorInvalidRelease base;
     CreateErrorContainerNotFound := CreateErrorContainerNotFound base;
     ResolveContainerAndImageNames := ResolveContainerAndImageNames base;
     GetHostID := GetHostID base;
     GetHostVariantID := GetHostVariantID base;
     AskForConfirmation := AskForConfirmation base;
     GetRuntimeDirectory := GetRuntimeDirectory base;
     PathExists := PathExists base;
     GetEnvOptionsForPreservedVariables := GetEnvOptionsForPreservedVariables base;
     ContainerExists := ContainerExists base;
     CheckVersion := CheckVersion base;
     LogLevel_String := LogLevel_String base;
     RunWithExitCode := RunWithExitCode base;
     Getenv := Getenv base |}.

(** A validator that says "not valid" and reports no error. *)
Definition verdictOnly : World := withValidator ready (fun _ => (false, None)).

End Faulty.

(** * Properties *)

(** ** Bookkeeping for states and traces *)

Lemma record_as_records (e : Event) (st : State) : record e st = records [e] st.
Proof. reflexivity. Qed.

Lemma records_records (es1 es2 : list Event) (st : State) :
  records es2 (records es1 st) = records (es1 ++ es2) st.
Proof. unfold records; cbn. now rewrite app_assoc. Qed.

Lemma records_nil (st : State) : records [] st = st.
Proof. destruct st; unfold records; cbn. now rewrite app_nil_r. Qed.

Lemma trace_records (es : list Event) (st : State) :
  trace (records es st) = (trace st ++ es)%list.
Proof. reflexivity. Qed.

Lemma clock_records (es : list Event) (st : State) :
  clock (records es st) = clock st.
Proof. reflexivity. Qed.

Lemma count_app (p : Event -> bool) (es1 es2 : list Event) :
  count p (es1 ++ es2) = (count p es1 + count p es2)%nat.
Proof. unfold count. now rewrite filter_app, length_app. Qed.

Lemma count_none (p : Event -> bool) (es : list Event) :
  Forall (fun e => p e = false) es -> count p es = 0%nat.
Proof.
  unfold count. induction 1 as [|e es He _ IH]; cbn; [reflexivity|].
  now rewrite He.
Qed.

(** Unfold the monad, one layer of the function at hand at a time. *)
Ltac run :=
  cbv beta iota delta [bind emit call ret return_ panic sleep getClock index0];
  cbn [fst snd negb andb].

Ltac tidy := rewrite ?record_as_records, ?records_records; cbn [app].

(** ** Which events an action can record *)

Section EmitsOnly.

Variable P : Event -> Prop.

Lemma emitsOnly_ret {A : Type} (a : A) : emitsOnly P (ret a).
Proof. intros st. exists []. cbn. now rewrite app_nil_r. Qed.

Lemma emitsOnly_return {A : Type} (err : option error) :
  emitsOnly P (@return_ A err).
Proof. intros st. exists []. cbn. now rewrite app_nil_r. Qed.

Lemma emitsOnly_panic {A : Type} (msg : string) : emitsOnly P (@panic A msg).
Proof. intros st. exists []. cbn. now rewrite app_nil_r. Qed.

Lemma emitsOnly_getClock : emitsOnly P getClock.
Proof. intros st. exists []. cbn. now rewrite app_nil_r. Qed.

Lemma emitsOnly_emit (e : Event) : P e -> emitsOnly P (emit e).
Proof. intros He st. exists [e]. cbn. auto. Qed.

Lemma emitsOnly_call {A : Type} (e : Event) (answer : A) :
  P e -> emitsOnly P (call e answer).
Proof. intros He st. exists [e]. cbn. auto. Qed.

Lemma emitsOnly_sleep (seconds : Z) : P (Sleep seconds) -> emitsOnly P (sleep seconds).
Proof. intros He st. exists [Sleep seconds]. cbn. auto. Qed.

Lemma emitsOnly_bind {A B : Type} (m : M A) (k : A -> M B) :
  emitsOnly P m -> (forall a, emitsOnly P (k a)) -> emitsOnly P (bind m k).
Proof.
  intros Hm Hk st. unfold bind.
  destruct (Hm st) as [es1 [E1 F1]].
  destruct (m st) as [[a| err | msg |] st1]; cbn in E1;
    try (exists es1; cbn; auto; fail).
  destruct (Hk a st1) as [es2 [E2 F2]].
  exists (es1 ++ es2)%list. split.
  - now rewrite E2, E1, app_assoc.
  - apply Forall_app; auto.
Qed.

End EmitsOnly.

Ltac emits_step :=
  first
    [ apply emitsOnly_ret
    | apply emitsOnly_return
    | apply emitsOnly_panic
    | apply emitsOnly_getClock
    | apply emitsOnly_emit; reflexivity
    | apply emitsOnly_call; reflexivity
    | apply emitsOnly_sleep; reflexivity
    | apply emitsOnly_bind; [ | intro ]
    | match goal with
      | |- emitsOnly _ (match ?x with _ => _ end) => destruct x
      end ].

Ltac emits := cbv zeta; repeat (emits_step; cbv zeta).

Section Traces.

Variable w : World.

Lemma debugEach_quiet (args : list string) : emitsOnly quiet (debugEach args).
Proof. induction args as [|arg rest IH]; cbn [debugEach]; emits. exact IH. Qed.

Lemma pollInitializedStamp_quiet (fuel : nat) (container stamp : string)
    (timeout i : Z) :
  emitsOnly quiet (pollInitializedStamp w fuel container stamp timeout i).
Proof.
  revert i. induction fuel as [|fuel IH]; intros i; cbn [pollInitializedStamp].
  - intros st. exists []. cbn. now rewrite app_nil_r.
  - emits. apply IH.
Qed.

Lemma enterResolved_quiet (fuel : nat) (container : string) (command : list string)
    (emitEscapeSequence fallbackToBash : bool) :
  emitsOnly quiet
    (enterResolved w fuel container command emitEscapeSequence fallbackToBash).
Proof.
  unfold enterResolved, startAndCheckEntryPoint, waitForInitialization,
    checkCommand, buildExecArgs, runExec, classifyExitCode, index0.
  emits;
    solve [ apply pollInitializedStamp_quiet | apply debugEach_quiet ].
Qed.

End Traces.

Lemma quiet_count (es : list Event) :
  Forall quiet es -> count isCreate es = 0%nat /\ count isPrompt es = 0%nat.
Proof.
  intros H; split; apply count_none; eapply Forall_impl; try exact H;
    intros e He; unfold quiet, isCreateOrPrompt in He;
    apply orb_false_iff in He; tauto.
Qed.

(** ** The existence and fallback policy (lines 176-232) *)

Section ExistencePolicy.

Variable w : World.

Lemma existencePolicy_missing container defaultContainer image release e st :
  image <> "" -> release <> "" ->
  snd (ContainerExists w container) = Some e ->
  existencePolicy w container defaultContainer image release false st =
  match snd (listContainers w) with
  | Some _ =>
    (Return (Some (CreateErrorContainerNotFound w container (executableBase w))),
     records (missingPrefix container) st)
  | None =>
    let containers := fst (listContainers w) in
    let st1 := records (missingPrefix container ++ [foundN (List.length containers)]) st in
    match containers with
    | [] =>
      if rootFlags_assumeYes w then
        match createContainer w container image release false with
        | Some e' =>
          (Return (Some e'),
           records [CallCreateContainer container image release false] st1)
        | None =>
          (Val container,
           records [CallCreateContainer container image release false] st1)
        end
      else if AskForConfirmation w createPrompt then
        match createContainer w container image release false with
        | Some e' =>
          (Return (Some e'),
           records [CallAskForConfirmation createPrompt;
                    CallCreateContainer container image release false] st1)
        | None =>
          (Val container,
           records [CallAskForConfirmation createPrompt;
                    CallCreateContainer container image release false] st1)
        end
      else
        (Return None,
         records (CallAskForConfirmation createPrompt :: declinedNotice w) st1)
    | [c0] =>
      if defaultContainer then
        match Names c0 with
        | name :: _ => (Val name, records (substitutionNotice w container name) st1)
        | [] =>
          (Panic "runtime error: index out of range [0] with length 0",
           records [Stderr ("Error: container " ++ container ++ " not found" ++ nl)] st1)
        end
      else (Return (Some (errSelectContainer w container)), st1)
    | _ :: _ :: _ => (Return (Some (errSelectContainer w container)), st1)
    end
  end.
Proof.
  intros Hi Hr He.
  apply String.eqb_neq in Hi, Hr.
  unfold existencePolicy. run. rewrite Hi, Hr. run. rewrite He. run.
  destruct (listContainers w) as [containers [e'|]]; run; tidy; [reflexivity|].
  destruct containers as [|c0 [|c1 rest]].
  - cbn [List.length Z.of_nat Z.eqb].
    destruct (rootFlags_assumeYes w); run.
    + destruct (createContainer w container image release false);
        tidy; reflexivity.
    + fold createPrompt.
      destruct (AskForConfirmation w createPrompt); run.
      * destruct (createContainer w container image release false);
          tidy; reflexivity.
      * tidy. reflexivity.
  - cbn [List.length Z.of_nat Z.eqb Pos.eqb Pos.of_succ_nat].
    destruct defaultContainer; run; [|tidy; reflexivity].
    destruct (Names c0) as [|name names]; run; tidy; reflexivity.
  - assert (H0 : (Z.of_nat (List.length (c0 :: c1 :: rest)) =? 0) = false)
      by (apply Z.eqb_neq; cbn [List.length]; lia).
    assert (H1 : (Z.of_nat (List.length (c0 :: c1 :: rest)) =? 1) = false)
      by (apply Z.eqb_neq; cbn [List.length]; lia).
    rewrite H0, H1. run. tidy. reflexivity.
Qed.

End ExistencePolicy.

Section Fallback.

Variable w : World.

Lemma enterContainer_after_policy container defaultContainer image release
    command emitEscapeSequence fallbackToBash pedantic st :
  enterContainer w container defaultContainer image release command
                 emitEscapeSequence fallbackToBash pedantic st =
  match existencePolicy w container defaultContainer image release pedantic st with
  | (Val container', st') =>
    enterResolved w pollFuel container' command emitEscapeSequence fallbackToBash st'
  | (Return err, st') => (Return err, st')
  | (Panic msg, st') => (Panic msg, st')
  | (OutOfFuel, st') => (OutOfFuel, st')
  end.
Proof. reflexivity. Qed.

(** C1: in permissive mode, with the requested container missing and the
    listing successful: when exactly one container is listed and the request
    is a default entry, its (first) name replaces the requested one, the
    four-line diagnostic goes to standard error, the rest of the function
    (line 234 on) runs with that name, and the whole run creates nothing.
    When exactly one container is listed but the request is not a default
    entry, or two or more are listed, the run ends at once with the
    "container ... not found / Use the '--container' option" error; nothing
    is printed, substituted or created.  [image] and [release] are non-empty,
    as lines 165-171 demand of every permissive caller; the listed container
    carries a name, as every podman container does. *)
Theorem enterContainer_single_existing_container
    container defaultContainer image release command emitEscapeSequence
    fallbackToBash e containers st :
  image <> "" -> release <> "" ->
  snd (ContainerExists w container) = Some e ->
  listContainers w = (containers, None) ->
  (forall c0 name names,
      containers = [c0] -> Names c0 = name :: names -> defaultContainer = true ->
      enterContainer w container defaultContainer image release command
                     emitEscapeSequence fallbackToBash false st =
      enterResolved w pollFuel name command emitEscapeSequence fallbackToBash
        (records (missingPrefix container ++ [foundN 1]
                  ++ substitutionNotice w container name) st)
      /\ count isCreate
           (trace (snd (enterContainer w container defaultContainer image release
                          command emitEscapeSequence fallbackToBash false st)))
         = count isCreate (trace st))
  /\ ((List.length containers = 1%nat /\ defaultContainer = false)
      \/ (2 <= List.length containers)%nat ->
      enterContainer w container defaultContainer image release command
                     emitEscapeSequence fallbackToBash false st =
      (Return (Some (errSelectContainer w container)),
       records (missingPrefix container ++ [foundN (List.length containers)]) st)).
Proof.
  intros Hi Hr He Hl.
  rewrite enterContainer_after_policy,
    (existencePolicy_missing w container defaultContainer image release e st Hi Hr He),
    Hl.
  cbn [fst snd]. cbv zeta. split.
  - intros c0 name names -> Hn ->. rewrite Hn. tidy.
    split; [reflexivity|].
    destruct (enterResolved_quiet w pollFuel name command emitEscapeSequence
                fallbackToBash
                (records (missingPrefix container ++ [foundN 1]
                          ++ substitutionNotice w container name) st))
      as [es [E F]].
    cbn [List.length app missingPrefix substitutionNotice] in *.
    rewrite E, trace_records, !count_app.
    rewrite (proj1 (quiet_count es F)). cbn. lia.
  - intros [[Hlen ->] | Hlen].
    + destruct containers as [|c0 [|c1 rest]]; try discriminate Hlen.
      tidy. reflexivity.
    + destruct containers as [|c0 [|c1 rest]]; cbn [List.length] in Hlen; try lia.
      reflexivity.
Qed.

(** C7: in permissive mode, with the requested container missing and no
    container listed at all.  With [--assume-yes] the user is not asked;
    [createContainer] is called with the requested name, image and release
    (and [false]); when it succeeds the rest of the function (line 234 on)
    runs with the requested name, and in the whole run exactly one creation
    and no request for confirmation is recorded.  Without [--assume-yes],
    when the user declines, the run returns nil after the two informational
    lines on standard output, and no creation is recorded. *)
Theorem enterContainer_no_containers
    container defaultContainer image release command emitEscapeSequence
    fallbackToBash e st :
  image <> "" -> release <> "" ->
  snd (ContainerExists w container) = Some e ->
  listContainers w = ([], None) ->
  (rootFlags_assumeYes w = true ->
   createContainer w container image release false = None ->
   let run := enterContainer w container defaultContainer image release command
                emitEscapeSequence fallbackToBash false st in
   run = enterResolved w pollFuel container command emitEscapeSequence fallbackToBash
           (records (missingPrefix container
                     ++ [foundN 0; CallCreateContainer container image release false]) st)
   /\ count isCreate (trace (snd run)) = S (count isCreate (trace st))
   /\ count isPrompt (trace (snd run)) = count isPrompt (trace st))
  /\ (rootFlags_assumeYes w = false ->
      AskForConfirmation w createPrompt = false ->
      let run := enterContainer w container defaultContainer image release command
                   emitEscapeSequence fallbackToBash false st in
      run = (Return None,
             records (missingPrefix container
                      ++ [foundN 0; CallAskForConfirmation createPrompt]
                      ++ declinedNotice w) st)
      /\ count isCreate (trace (snd run)) = count isCreate (trace st)).
Proof.
  intros Hi Hr He Hl.
  rewrite enterContainer_after_policy,
    (existencePolicy_missing w container defaultContainer image release e st Hi Hr He),
    Hl.
  cbn [fst snd]. cbv zeta. split.
  - intros Hy Hc. rewrite Hy, Hc. tidy.
    split; [reflexivity|].
    destruct (enterResolved_quiet w pollFuel container command emitEscapeSequence
                fallbackToBash
                (records (missingPrefix container
                          ++ [foundN 0; CallCreateContainer container image release false])
                         st))
      as [es [E F]].
    cbn [List.length app missingPrefix] in *.
    rewrite E, trace_records, !count_app.
    rewrite (proj1 (quiet_count es F)), (proj2 (quiet_count es F)). cbn. lia.
  - intros Hy Hc. rewrite Hy, Hc. tidy.
    split; [reflexivity|].
    cbn [snd]. rewrite trace_records, count_app. cbn. lia.
Qed.

(** C10: in permissive mode, with the requested container missing, when
    [listContainers] itself fails the run returns
    [utils.CreateErrorContainerNotFound(container, executableBase)], the very
    error pedantic mode returns for a missing container; the listing's own
    error is dropped, and after the listing call nothing is recorded: no
    prompt, no creation, no diagnostic. *)
Theorem enterContainer_listing_fails
    container defaultContainer image release command emitEscapeSequence
    fallbackToBash e containers listErr st :
  image <> "" -> release <> "" ->
  snd (ContainerExists w container) = Some e ->
  listContainers w = (containers, Some listErr) ->
  enterContainer w container defaultContainer image release command
                 emitEscapeSequence fallbackToBash false st =
  (Return (Some (CreateErrorContainerNotFound w container (executableBase w))),
   records (missingPrefix container) st)
  /\ fst (enterContainer w container defaultContainer image release command
                         emitEscapeSequence fallbackToBash true st) =
     Return (Some (CreateErrorContainerNotFound w container (executableBase w))).
Proof.
  intros Hi Hr He Hl. split.
  - rewrite enterContainer_after_policy,
      (existencePolicy_missing w container defaultContainer image release e st Hi Hr He),
      Hl.
    reflexivity.
  - unfold enterContainer, existencePolicy. run. rewrite He. reflexivity.
Qed.

End Fallback.

(** ** Waiting for the initialization stamp (lines 261-281) *)

Section Waiting.

Variable w : World.

Lemma count_pollRounds (stamp : string) (n : nat) :
  count isPoll (pollRounds stamp n) = n /\ count isSleep (pollRounds stamp n) = n.
Proof.
  unfold count. induction n as [|n [IHp IHs]]; cbn; [split; reflexivity|].
  cbn in IHp, IHs. now rewrite IHp, IHs.
Qed.

(** As long as the stamp is missing and the counter is short of the
    timeout, each round costs one look, one second and one unit of fuel. *)
Lemma pollInitializedStamp_rounds (container stamp : string) (timeout : Z) (n : nat) :
  forall (fuel : nat) (i : Z) (st : State),
    (n <= fuel)%nat ->
    i + Z.of_nat n <= timeout ->
    (forall j, (j < n)%nat -> PathExists w (clock st + j) stamp = false) ->
    pollInitializedStamp w fuel container stamp timeout i st =
    pollInitializedStamp w (fuel - n) container stamp timeout (i + Z.of_nat n)
      {| clock := clock st + n; trace := trace st ++ pollRounds stamp n |}.
Proof.
  induction n as [|n IH]; intros fuel i st Hfuel Hi Habsent.
  - rewrite Nat.sub_0_r, Z.add_0_r. destruct st as [c t]; cbn.
    now rewrite Nat.add_0_r, app_nil_r.
  - destruct fuel as [|fuel]; [lia|].
    cbn [pollInitializedStamp]. run.
    assert (H0 : PathExists w (clock st) stamp = false).
    { rewrite <- (Nat.add_0_r (clock st)). apply Habsent. lia. }
    rewrite H0.
    assert (Hne : (i =? timeout) = false) by (apply Z.eqb_neq; lia).
    rewrite Hne. cbn [clock trace record].
    rewrite IH; try lia.
    + cbn [clock trace Nat.sub pollRounds].
      replace (i + 1 + Z.of_nat n) with (i + Z.of_nat (S n)) by lia.
      replace (clock st + Z.to_nat 1 + n)%nat with (clock st + S n)%nat by lia.
      now rewrite <- !app_assoc.
    + intros j Hj. cbn [clock].
      replace (clock st + Z.to_nat 1 + j)%nat with (clock st + S j)%nat by lia.
      apply Habsent. lia.
Qed.

Lemma pollInitializedStamp_present (container stamp : string) (timeout i : Z)
    (fuel : nat) (st : State) :
  PathExists w (clock st) stamp = true ->
  pollInitializedStamp w (S fuel) container stamp timeout i st =
  (Val tt, record (CallPathExists stamp) st).
Proof. intros H. cbn [pollInitializedStamp]. run. now rewrite H. Qed.

Lemma pollInitializedStamp_timeout (container stamp : string) (timeout : Z)
    (fuel : nat) (st : State) :
  PathExists w (clock st) stamp = false ->
  pollInitializedStamp w (S fuel) container stamp timeout timeout st =
  (Return (Some (errors_New ("failed to initialize container " ++ container))),
   record (CallPathExists stamp) st).
Proof.
  intros H. cbn [pollInitializedStamp]. run. now rewrite H, Z.eqb_refl.
Qed.

(** The loop started at [i = 0] with a timeout of [n] seconds looks for the
    stamp at most [n + 1] times: that much fuel is always enough. *)
Lemma pollInitializedStamp_fuel (container stamp : string) (n : nat) :
  forall (fuel : nat) (i : Z) (st : State),
    0 <= i ->
    (Z.to_nat (Z.of_nat n - i) < fuel)%nat ->
    i <= Z.of_nat n ->
    fst (pollInitializedStamp w fuel container stamp (Z.of_nat n) i st) <> OutOfFuel.
Proof.
  intros fuel. induction fuel as [|fuel IH]; intros i st Hi Hfuel Hn; [lia|].
  cbn [pollInitializedStamp]. run.
  destruct (PathExists w (clock st) stamp); [discriminate|].
  destruct (Z.eqb_spec i (Z.of_nat n)); [discriminate|].
  apply IH; lia.
Qed.

End Waiting.

Section WaitingClaims.

Variable w : World.

(** C2 (as the code has it): the stamp
    [<runtimeDir>/container-initialized-<pid>] is looked for at once and then
    again after every one-second sleep, at most 26 times with 25 sleeps
    between them.  When it is first seen on look [k] (1 <= k <= 26) the wait
    ends successfully after exactly [k - 1] sleeps; when all 26 looks miss
    it, that is after 25 seconds, the run returns "failed to initialize
    container ...".  Any fuel of 26 or more gives these results. *)
Theorem waitForInitialization_polls
    (fuel : nat) (container : string) (entryPointPID : Z) (dir : string) (st : State) :
  (26 <= fuel)%nat ->
  GetRuntimeDirectory w (currentUser w) = (dir, None) ->
  let stamp := dir ++ "/container-initialized-" ++ fmt_d entryPointPID in
  let notice :=
    [Debug ("Waiting for container " ++ container ++ " to finish initializing");
     Debug ("Checking if initialization stamp " ++ stamp ++ " exists")] in
  (forall k : nat,
      (1 <= k <= 26)%nat ->
      (forall j, (j < k - 1)%nat -> PathExists w (clock st + j) stamp = false) ->
      PathExists w (clock st + (k - 1)) stamp = true ->
      waitForInitialization w fuel container entryPointPID st =
      (Val tt,
       {| clock := clock st + (k - 1);
          trace := trace st ++ notice ++ pollRounds stamp (k - 1)
                   ++ [CallPathExists stamp;
                       Debug ("Container " ++ container ++ " is initialized")] |}))
  /\ ((forall j, (j <= 25)%nat -> PathExists w (clock st + j) stamp = false) ->
      waitForInitialization w fuel container entryPointPID st =
      (Return (Some (errors_New ("failed to initialize container " ++ container))),
       {| clock := clock st + 25;
          trace := trace st ++ notice ++ pollRounds stamp 25
                   ++ [CallPathExists stamp] |})).
Proof.
  intros Hfuel Hdir stamp notice.
  unfold waitForInitialization. run. rewrite Hdir. cbv zeta. fold stamp.
  tidy.
  set (st1 := records _ st).
  assert (Hclock : clock st1 = clock st) by reflexivity.
  assert (Htrace : trace st1 = (trace st ++ notice)%list) by reflexivity.
  clearbody st1. split.
  - intros k Hk Habsent Hpresent.
    rewrite (pollInitializedStamp_rounds w container stamp 25 (k - 1) fuel 0 st1);
      [ | lia | lia | intros j Hj; rewrite Hclock; auto ].
    destruct (fuel - (k - 1))%nat as [|fuel'] eqn:Ef; [lia|].
    rewrite pollInitializedStamp_present by (cbn [clock]; now rewrite Hclock).
    unfold record; cbn [clock trace]. rewrite Hclock, Htrace.
    now rewrite <- !app_assoc.
  - intros Habsent.
    rewrite (pollInitializedStamp_rounds w container stamp 25 25 fuel 0 st1);
      [ | lia | lia | intros j Hj; rewrite Hclock; apply Habsent; lia ].
    destruct (fuel - 25)%nat as [|fuel'] eqn:Ef; [lia|].
    change (0 + Z.of_nat 25) with 25.
    rewrite pollInitializedStamp_timeout
      by (cbn [clock]; rewrite Hclock; apply Habsent; lia).
    unfold record; cbn [clock trace]. rewrite Hclock, Htrace.
    now rewrite <- !app_assoc.
Qed.

(** With the fuel [enterContainer] gives it, the wait always ends. *)
Lemma waitForInitialization_total (container : string) (entryPointPID : Z) (st : State) :
  fst (waitForInitialization w pollFuel container entryPointPID st) <> OutOfFuel.
Proof.
  unfold waitForInitialization. run.
  destruct (GetRuntimeDirectory w (currentUser w)) as [dir [e|]]; [discriminate|].
  cbv zeta.
  match goal with
  | |- context [pollInitializedStamp w pollFuel ?c ?s 25 0 ?st0] =>
    assert (H : fst (pollInitializedStamp w pollFuel c s 25 0 st0) <> OutOfFuel)
      by (apply (pollInitializedStamp_fuel w c s 25%nat); unfold pollFuel; cbn; lia);
    destruct (pollInitializedStamp w pollFuel c s 25 0 st0) as [[[]|err|msg|] st']
  end; try discriminate.
  exact H.
Qed.

End WaitingClaims.

(** ** The entry point (lines 234-259) *)

Section EntryPoint.

Variable w : World.

(** C6: once the session helper and the start of the container have
    succeeded and the entry point has been fetched: a name other than
    "toolbox" ends the run with the "too old ... Recreate it" error, and the
    name "toolbox" with a PID of zero or less ends it with the "invalid entry
    point PID" error.  Either way the run stops right after the fetch: the
    stamp is never looked for, whatever [PathExists] would answer, and no
    time passes. *)
Theorem enterResolved_entry_point
    (fuel : nat) (container : string) (command : list string)
    (emitEscapeSequence fallbackToBash : bool)
    (entryPoint : string) (entryPointPID : Z) (st : State) :
  callFlatpakSessionHelper w container = None ->
  startContainer w container = None ->
  getEntryPointAndPID w container = (entryPoint, entryPointPID, None) ->
  let run := enterResolved w fuel container command emitEscapeSequence
               fallbackToBash st in
  let fetched :=
    records [CallFlatpakSessionHelper container;
             Debug ("Starting container " ++ container);
             CallStartContainer container;
             CallGetEntryPointAndPID container] st in
  (entryPoint <> "toolbox" ->
   run = (Return (Some (errors_New
            ("container " ++ container ++ " is too old and no longer supported " ++ nl
             ++ "Recreate it with Toolbox version 0.0.17 or newer." ++ nl))),
          fetched)
   /\ count isPoll (trace (snd run)) = count isPoll (trace st)
   /\ clock (snd run) = clock st)
  /\ (entryPoint = "toolbox" -> entryPointPID <= 0 ->
      run = (Return (Some (errors_New
               ("invalid entry point PID of container " ++ container))),
             fetched)).
Proof.
  intros Hh Hs Hg run0 fetched. subst run0.
  unfold enterResolved, startAndCheckEntryPoint. run.
  rewrite Hh, Hs, Hg. run. tidy. fold fetched. split.
  - intros Hne. apply String.eqb_neq in Hne. rewrite Hne. cbn [negb fst snd].
    split; [reflexivity|]. split; [|reflexivity].
    unfold fetched. rewrite trace_records, count_app. cbn. lia.
  - intros -> Hpid. rewrite String.eqb_refl. cbn [negb].
    apply Z.leb_le in Hpid. now rewrite Hpid.
Qed.

End EntryPoint.

(** ** The exit code of [podman exec] (lines 348-371) *)

Section ExitCode.

Variable w : World.

(** C3 (as the code has it): an exit code other than 0, 125, 126 and 127 is
    not an error of toolbox: whatever the exit code and whatever error
    [shell.RunWithExitCode] reported, [enterContainer] returns nil, prints
    nothing and calls nothing.  The exit code itself is not handed on. *)
Theorem classifyExitCode_other
    (container : string) (command : list string) (exitCode : Z)
    (err : option error) (st : State) :
  exitCode <> 0 -> exitCode <> 125 -> exitCode <> 126 -> exitCode <> 127 ->
  classifyExitCode w container command exitCode err st = (Return None, st).
Proof.
  intros H0 H125 H126 H127.
  apply Z.eqb_neq in H0, H125, H126, H127.
  unfold classifyExitCode. run. now rewrite H0, H125, H126, H127.
Qed.

(** C4: exit code 125 gives "failed to invoke 'podman exec' in container
    ...", 126 gives "failed to invoke command ... in container ...", and 127
    asks [isPathPresent] about the working directory: "directory ... not
    found in container ..." when it is absent, "command ... not found in
    container ..." otherwise.  Whatever [shell.RunWithExitCode] reported as
    its own error is replaced. *)
Theorem classifyExitCode_engine_codes
    (container command0 : string) (rest : list string)
    (err : option error) (st : State) :
  classifyExitCode w container (command0 :: rest) 125 err st =
    (Return (Some (errors_New
       ("failed to invoke 'podman exec' in container " ++ container))), st)
  /\ classifyExitCode w container (command0 :: rest) 126 err st =
    (Return (Some (errors_New
       ("failed to invoke command " ++ command0 ++ " in container " ++ container))), st)
  /\ classifyExitCode w container (command0 :: rest) 127 err st =
    (Return (Some
       (if fst (isPathPresent w container (workingDirectory w))
        then errors_New ("command " ++ command0 ++ " not found in container " ++ container)
        else errors_New ("directory " ++ workingDirectory w
                         ++ " not found in container " ++ container))),
     records [CallIsPathPresent container (workingDirectory w)] st).
Proof.
  unfold classifyExitCode. repeat split; run; cbn [Z.eqb Pos.eqb]; run;
    try reflexivity.
  destruct (fst (isPathPresent w container (workingDirectory w))); reflexivity.
Qed.

(** C5: with exit code 0, an error reported by [shell.RunWithExitCode]
    makes the function panic; without one the function returns nil.  So a
    run with exit code 0 that does not panic returns nil, and neither case
    prints or calls anything. *)
Theorem classifyExitCode_zero
    (container : string) (command : list string) (err : option error) (st : State) :
  (forall e, err = Some e ->
     classifyExitCode w container command 0 err st =
     (Panic "unexpected error: 'podman exec' finished successfully", st))
  /\ (err = None ->
      classifyExitCode w container command 0 err st = (Return None, st))
  /\ ((forall msg, fst (classifyExitCode w container command 0 err st) <> Panic msg) ->
      classifyExitCode w container command 0 err st = (Return None, st)).
Proof.
  unfold classifyExitCode. run. cbn [Z.eqb].
  repeat split.
  - now intros e ->.
  - now intros ->.
  - destruct err as [e|]; [|reflexivity].
    intros H. exfalso. now apply (H "unexpected error: 'podman exec' finished successfully").
Qed.

End ExitCode.

(** ** The argument vector (lines 297-330) *)

Section ExecArgs.

Variable w : World.

(** C9: the builder always yields a vector, and the vector is, in this
    order: [--log-level <level> exec], then [--detach-keys ""] exactly when
    [podman.CheckVersion("1.8.1")] holds, then [--interactive --tty],
    [--user <name>], [--workdir <dir>], the options for the preserved
    environment variables, the container, [capsh --caps= -- -c 'exec "$@"'
    /bin/sh], and the command. *)
Theorem buildExecArgs_order (container : string) (command : list string) (st : State) :
  buildExecArgs w container command st =
  (Val (["--log-level"; LogLevel_String w; "exec"]
        ++ (if CheckVersion w "1.8.1" then ["--detach-keys"; ""] else [])
        ++ ["--interactive"; "--tty"]
        ++ ["--user"; Username (currentUser w)]
        ++ ["--workdir"; workingDirectory w]
        ++ GetEnvOptionsForPreservedVariables w
        ++ [container]
        ++ ["capsh"; "--caps="; "--"; "-c"; ("exec " ++ dquote ++ "$@" ++ dquote)%string;
            "/bin/sh"]
        ++ command)%list,
   records (Debug "Checking if 'podman exec' supports disabling the detach keys"
            :: CallCheckVersion "1.8.1"
            :: (if CheckVersion w "1.8.1"
                then [Debug "'podman exec' supports disabling the detach keys"]
                else [])) st).
Proof.
  unfold buildExecArgs. run.
  destruct (CheckVersion w "1.8.1"); run; tidy;
    cbn [app]; rewrite <- ?app_assoc; reflexivity.
Qed.

(** The vector is handed to [podman] as it is. *)
Lemma runExec_result (container : string) (execArgs : list string)
    (emitEscapeSequence : bool) (st : State) :
  exists st',
    runExec w container execArgs emitEscapeSequence st =
    (Val (RunWithExitCode w "podman" execArgs), st')
    /\ In (CallRunWithExitCode "podman" execArgs) (trace st').
Proof.
  unfold runExec.
  assert (Hd : forall s, exists s', debugEach execArgs s = (Val tt, s')).
  { induction execArgs as [|a l IH]; intros s; cbn [debugEach]; run.
    - now exists s.
    - apply IH. }
  destruct emitEscapeSequence; run;
    match goal with
    | |- context [debugEach execArgs ?s] => destruct (Hd s) as [s' ->]
    end;
    eexists; (split; [reflexivity|]); unfold record; cbn [trace];
    rewrite ?in_app_iff; cbn; tauto.
Qed.

End ExecArgs.

(** ** enter (lines 65-156) *)

Section Enter.

Variable w : World.

(** X20: on the host, that is when [enter] does not find itself inside a
    container, a supplied name (the positional argument if there is one,
    else [--container]) for which [utils.IsContainerNameValid] returns an
    error makes [enter] return the "invalid argument" error, whose second
    line quotes [utils.ContainerNameRegexp]; up to that point nothing has
    been recorded, so no call has reached podman.  The error is all that
    line 93 looks at: the validator's boolean is discarded. *)
Theorem enter_invalid_name (args : list string) (e : error) (st : State) :
  IsInsideContainer w = false ->
  suppliedName w args <> "" ->
  snd (IsContainerNameValid w (suppliedName w args)) = Some e ->
  enter w args st =
  (Return (Some (errors_New
     ("invalid argument for '" ++ suppliedNameArg args ++ "'" ++ nl
      ++ "Container names must match '" ++ ContainerNameRegexp w ++ "'" ++ nl
      ++ "Run '" ++ executableBase w ++ " --help' for usage."))),
   st)
  /\ count isEngineCall (trace (snd (enter w args st))) = count isEngineCall (trace st).
Proof.
  intros Hhost Hname Hinvalid.
  assert (Hne : nonEmpty (suppliedName w args) = true).
  { unfold nonEmpty. apply String.eqb_neq in Hname. now rewrite Hname. }
  assert (E : enter w args st =
              (Return (Some (errors_New
                 ("invalid argument for '" ++ suppliedNameArg args ++ "'" ++ nl
                  ++ "Container names must match '" ++ ContainerNameRegexp w ++ "'" ++ nl
                  ++ "Run '" ++ executableBase w ++ " --help' for usage."))),
               st)).
  { unfold enter. rewrite Hhost.
    destruct args as [|arg0 rest]; cbn [suppliedName suppliedNameArg] in *.
    - rewrite Hne. run. now rewrite Hne, Hinvalid.
    - run. now rewrite Hne, Hinvalid. }
  now rewrite E.
Qed.

(** On the host, when every check before it passes, [enter] is
    [enterContainer] in permissive mode with the fallback to bash allowed;
    the request counts as a default entry exactly when neither a container
    name nor a release was supplied. *)
Lemma enter_on_host (args : list string) (parsed container image release : string)
    (hostID hostVariantID : string) (st : State) :
  IsInsideContainer w = false ->
  (suppliedName w args = ""
   \/ snd (IsContainerNameValid w (suppliedName w args)) = None) ->
  ((enterFlags_release w = "" /\ parsed = "")
   \/ (enterFlags_release w <> "" /\
       ParseRelease w (enterFlags_release w) = (parsed, None))) ->
  ResolveContainerAndImageNames w (suppliedName w args) "" parsed =
    (container, image, release, None) ->
  Getenv w "SHELL" <> "" ->
  GetHostID w = (hostID, None) ->
  GetHostVariantID w = (hostVariantID, None) ->
  enter w args st =
  enterContainer w container
    (negb (nonEmpty (suppliedName w args) || nonEmpty (enterFlags_release w)))
    image release [Getenv w "SHELL"; "-l"]
    ((hostID =? "fedora")%string
     && ((hostVariantID =? "silverblue")%string
         || (hostVariantID =? "workstation")%string))
    true false st.
Proof.
  intros Hhost Hname Hrel Hres Hshell Hid Hvar.
  apply String.eqb_neq in Hshell.
  unfold enter. rewrite Hhost.
  assert (Hc : (let '(c, _) :=
                  match args with
                  | arg0 :: _ => (arg0, "CONTAINER")
                  | [] => if nonEmpty (enterFlags_container w)
                          then (enterFlags_container w, "--container")
                          else ("", "")
                  end in c) = suppliedName w args).
  { destruct args as [|arg0 rest]; cbn [suppliedName]; [|reflexivity].
    unfold nonEmpty. destruct (String.eqb_spec (enterFlags_container w) "") as [->|];
      reflexivity. }
  destruct (match args with
            | arg0 :: _ => (arg0, "CONTAINER")
            | [] => if nonEmpty (enterFlags_container w)
                    then (enterFlags_container w, "--container")
                    else ("", "")
            end) as [c containerArg].
  cbv zeta in Hc. subst c.
  run.
  assert (Hrel' :
    (nonEmpty (enterFlags_release w) = false /\ parsed = "")
    \/ (nonEmpty (enterFlags_release w) = true /\
        ParseRelease w (enterFlags_release w) = (parsed, None))).
  { unfold nonEmpty.
    destruct Hrel as [[Hr ->] | [Hr Hp]]; [left | right].
    - now rewrite Hr.
    - apply String.eqb_neq in Hr. now rewrite Hr. }
  clear Hrel.
  assert (Hname' :
    nonEmpty (suppliedName w args) = false
    \/ snd (IsContainerNameValid w (suppliedName w args)) = None).
  { destruct Hname as [Hn | Hn]; [left | right]; [now rewrite Hn | exact Hn]. }
  clear Hname.
  destruct Hname' as [Hn | Hn]; rewrite Hn;
    destruct (nonEmpty (suppliedName w args)); try discriminate Hn;
    cbn [orb negb];
    (destruct Hrel' as [[Hr ->] | [Hr Hp]]; rewrite Hr; cbn [fst snd orb negb];
     [ | rewrite Hp; cbn [fst snd] ];
     now rewrite Hres, Hshell, Hid, Hvar).
Qed.

End Enter.

(** ** From the start of the container to the exit code *)

Section EndToEnd.

Variable w : World.

(** When the container starts, its entry point is in order, the stamp is
    already there and the command exists, the run is decided by the exit
    code of [podman exec] alone. *)
Lemma enterResolved_ready (fuel : nat) (container command0 : string)
    (rest : list string) (emitEscapeSequence fallbackToBash : bool)
    (entryPointPID : Z) (dir : string) (st : State) :
  callFlatpakSessionHelper w container = None ->
  startContainer w container = None ->
  getEntryPointAndPID w container = ("toolbox", entryPointPID, None) ->
  0 < entryPointPID ->
  GetRuntimeDirectory w (currentUser w) = (dir, None) ->
  PathExists w (clock st) (dir ++ "/container-initialized-" ++ fmt_d entryPointPID) = true ->
  snd (isCommandPresent w container command0) = None ->
  exists execArgs st1 st2 st3,
    buildExecArgs w container (command0 :: rest) st1 = (Val execArgs, st2)
    /\ enterResolved w (S fuel) container (command0 :: rest) emitEscapeSequence
                     fallbackToBash st =
       classifyExitCode w container (command0 :: rest)
         (fst (RunWithExitCode w "podman" execArgs))
         (snd (RunWithExitCode w "podman" execArgs)) st3.
Proof.
  intros Hh Hs Hg Hpid Hdir Hstamp Hcmd.
  assert (Hpos : (entryPointPID <=? 0) = false) by (apply Z.leb_gt; exact Hpid).
  unfold enterResolved, startAndCheckEntryPoint, waitForInitialization, checkCommand.
  run. rewrite Hh, Hs, Hg. run. cbn [String.eqb Ascii.eqb Bool.eqb negb].
  rewrite Hpos, Hdir. cbv zeta. cbn [pollInitializedStamp]. run.
  cbn [clock record]. rewrite Hstamp, Hcmd.
  match goal with
  | |- context [buildExecArgs w container (command0 :: rest) ?s] =>
    destruct (buildExecArgs w container (command0 :: rest) s) as [r st2] eqn:Eb;
    exists (match r with Val a => a | _ => [] end), s, st2
  end.
  assert (Hr : exists execArgs, r = Val execArgs).
  { unfold buildExecArgs in Eb. revert Eb. run.
    destruct (CheckVersion w "1.8.1"); run; intros [= <- _]; eauto. }
  destruct Hr as [execArgs ->].
  destruct (runExec_result w container execArgs emitEscapeSequence st2) as [st3 [E _]].
  exists st3. split; [exact Eb|]. now rewrite E.
Qed.

End EndToEnd.

(** ** The model never runs out of fuel *)

Section Totality.

Variable w : World.

Lemma total_ret {A : Type} (a : A) : total (ret a).
Proof. intros st; discriminate. Qed.

Lemma total_return {A : Type} (err : option error) : total (@return_ A err).
Proof. intros st; discriminate. Qed.

Lemma total_panic {A : Type} (msg : string) : total (@panic A msg).
Proof. intros st; discriminate. Qed.

Lemma total_getClock : total getClock.
Proof. intros st; discriminate. Qed.

Lemma total_emit (e : Event) : total (emit e).
Proof. intros st; discriminate. Qed.

Lemma total_call {A : Type} (e : Event) (answer : A) : total (call e answer).
Proof. intros st; discriminate. Qed.

Lemma total_bind {A B : Type} (m : M A) (k : A -> M B) :
  total m -> (forall a, total (k a)) -> total (bind m k).
Proof.
  intros Hm Hk st. unfold bind. specialize (Hm st).
  destruct (m st) as [[a|err|msg|] st']; cbn in *; try discriminate.
  - apply Hk.
  - congruence.
Qed.

Lemma total_debugEach (args : list string) : total (debugEach args).
Proof.
  induction args as [|arg rest IH]; cbn [debugEach].
  - apply total_ret.
  - apply total_bind; [apply total_emit | intros _; exact IH].
Qed.

Lemma total_pollInitializedStamp (container stamp : string) :
  total (pollInitializedStamp w pollFuel container stamp 25 0).
Proof.
  intros st. apply (pollInitializedStamp_fuel w container stamp 25%nat);
    unfold pollFuel; cbn; lia.
Qed.

Ltac total_step :=
  first
    [ apply total_ret
    | apply total_return
    | apply total_panic
    | apply total_getClock
    | apply total_emit
    | apply total_call
    | apply total_debugEach
    | apply total_pollInitializedStamp
    | apply total_bind; [ | intro ]
    | match goal with
      | |- total (match ?x with _ => _ end) => destruct x
      end ].

(** Every run of [enterContainer] ends: it returns or it panics. *)
Lemma enterContainer_total container defaultContainer image release command
    emitEscapeSequence fallbackToBash pedantic :
  total (enterContainer w container defaultContainer image release command
           emitEscapeSequence fallbackToBash pedantic).
Proof.
  unfold enterContainer, existencePolicy, enterResolved, startAndCheckEntryPoint,
    waitForInitialization, checkCommand, buildExecArgs, runExec, classifyExitCode,
    index0.
  cbv zeta. repeat (total_step; cbv zeta).
Qed.

End Totality.

(** ** The statements at work on the sample host *)

Section Examples.

Import Sample.

Lemma enterContainer_single_existing_container_witness :
  enterContainer (hostWith [dev]) "fedora-toolbox-33" true "fedora-toolbox:33" "33"
                 ["/bin/zsh"; "-l"] true true false start =
  enterResolved (hostWith [dev]) pollFuel "dev" ["/bin/zsh"; "-l"] true true
    (records (missingPrefix "fedora-toolbox-33" ++ [foundN 1]
              ++ substitutionNotice (hostWith [dev]) "fedora-toolbox-33" "dev") start)
  /\ enterContainer (hostWith [dev]) "work" false "fedora-toolbox:33" "33"
                    ["/bin/zsh"; "-l"] true true false start =
     (Return (Some (errSelectContainer (hostWith [dev]) "work")),
      records (missingPrefix "work" ++ [foundN 1]) start)
  /\ enterContainer (hostWith [dev; scratch]) "fedora-toolbox-33" true
                    "fedora-toolbox:33" "33" ["/bin/zsh"; "-l"] true true false start =
     (Return (Some (errSelectContainer (hostWith [dev; scratch]) "fedora-toolbox-33")),
      records (missingPrefix "fedora-toolbox-33" ++ [foundN 2]) start).
Proof.
  split; [|split].
  - apply (proj1 (enterContainer_single_existing_container (hostWith [dev])
             "fedora-toolbox-33" true "fedora-toolbox:33" "33" ["/bin/zsh"; "-l"]
             true true (errors_New "no such container") [dev] start
             ltac:(discriminate) ltac:(discriminate) eq_refl eq_refl)
           dev "dev" [] eq_refl eq_refl eq_refl).
  - apply (proj2 (enterContainer_single_existing_container (hostWith [dev])
             "work" false "fedora-toolbox:33" "33" ["/bin/zsh"; "-l"]
             true true (errors_New "no such container") [dev] start
             ltac:(discriminate) ltac:(discriminate) eq_refl eq_refl)).
    left. split; reflexivity.
  - apply (proj2 (enterContainer_single_existing_container (hostWith [dev; scratch])
             "fedora-toolbox-33" true "fedora-toolbox:33" "33" ["/bin/zsh"; "-l"]
             true true (errors_New "no such container") [dev; scratch] start
             ltac:(discriminate) ltac:(discriminate) eq_refl eq_refl)).
    right. cbn. lia.
Defined.

Lemma enterContainer_no_containers_witness :
  count isCreate
    (trace (snd (enterContainer emptyHostAssumeYes "fedora-toolbox-33" true
                   "fedora-toolbox:33" "33" ["/bin/zsh"; "-l"] true true false start)))
  = 1%nat
  /\ enterContainer emptyHostDeclined "fedora-toolbox-33" true "fedora-toolbox:33" "33"
                    ["/bin/zsh"; "-l"] true true false start =
     (Return None,
      records (missingPrefix "fedora-toolbox-33"
               ++ [foundN 0; CallAskForConfirmation createPrompt]
               ++ declinedNotice emptyHostDeclined) start).
Proof.
  split.
  - apply (proj1 (enterContainer_no_containers emptyHostAssumeYes
             "fedora-toolbox-33" true "fedora-toolbox:33" "33" ["/bin/zsh"; "-l"]
             true true (errors_New "no such container") start
             ltac:(discriminate) ltac:(discriminate) eq_refl eq_refl)
           eq_refl eq_refl).
  - apply (proj2 (enterContainer_no_containers emptyHostDeclined
             "fedora-toolbox-33" true "fedora-toolbox:33" "33" ["/bin/zsh"; "-l"]
             true true (errors_New "no such container") start
             ltac:(discriminate) ltac:(discriminate) eq_refl eq_refl)
           eq_refl eq_refl).
Defined.

Lemma enterContainer_listing_fails_witness :
  enterContainer hostListFails "fedora-toolbox-33" true "fedora-toolbox:33" "33"
                 ["/bin/zsh"; "-l"] true true false start =
  (Return (Some (errors_New "container fedora-toolbox-33 not found")),
   records (missingPrefix "fedora-toolbox-33") start).
Proof.
  apply (proj1 (enterContainer_listing_fails hostListFails
           "fedora-toolbox-33" true "fedora-toolbox:33" "33" ["/bin/zsh"; "-l"]
           true true (errors_New "no such container") []
           (errors_New "podman ps failed") start
           ltac:(discriminate) ltac:(discriminate) eq_refl eq_refl)).
Defined.

Lemma waitForInitialization_polls_witness :
  waitForInitialization (hostReadyWhen (fun now => (3 <=? now)%nat)) pollFuel
                        "dev" 4242 start =
  (Val tt,
   {| clock := 3;
      trace :=
        [Debug "Waiting for container dev to finish initializing";
         Debug ("Checking if initialization stamp "
                ++ "/run/user/1000/toolbox/container-initialized-4242" ++ " exists")]
        ++ pollRounds "/run/user/1000/toolbox/container-initialized-4242" 3
        ++ [CallPathExists "/run/user/1000/toolbox/container-initialized-4242";
            Debug "Container dev is initialized"] |})
  /\ fst (waitForInitialization (hostReadyWhen (fun _ => false)) pollFuel
                                "dev" 4242 start) =
     Return (Some (errors_New "failed to initialize container dev")).
Proof.
  split.
  - apply (proj1 (waitForInitialization_polls
                    (hostReadyWhen (fun now => (3 <=? now)%nat)) pollFuel "dev" 4242
                    "/run/user/1000/toolbox" start (Nat.le_refl 26) eq_refl) 4%nat).
    + lia.
    + intros j Hj. cbn in Hj.
      destruct j as [|[|[|j]]]; try reflexivity. lia.
    + reflexivity.
  - rewrite (proj2 (waitForInitialization_polls
                      (hostReadyWhen (fun _ => false)) pollFuel "dev" 4242
                      "/run/user/1000/toolbox" start (Nat.le_refl 26) eq_refl)).
    + reflexivity.
    + intros j Hj. reflexivity.
Defined.

(** C2, where the specification's wording fails: with the stamp there from
    the start, the wait succeeds on its first look after zero seconds, not
    one; with a stamp that shows up after 25 seconds the wait still succeeds,
    on look 26; and a stamp that never shows up is looked for 26 times, not
    25. *)
Lemma waitForInitialization_counterexample :
  (fst (waitForInitialization (hostReadyWhen (fun _ => true)) pollFuel
                              "dev" 4242 start) = Val tt
   /\ count isPoll (trace (snd (waitForInitialization (hostReadyWhen (fun _ => true))
                                  pollFuel "dev" 4242 start))) = 1%nat
   /\ clock (snd (waitForInitialization (hostReadyWhen (fun _ => true))
                    pollFuel "dev" 4242 start)) = 0%nat)
  /\ (fst (waitForInitialization (hostReadyWhen (fun now => (25 <=? now)%nat)) pollFuel
                                 "dev" 4242 start) = Val tt
      /\ count isPoll
           (trace (snd (waitForInitialization
                          (hostReadyWhen (fun now => (25 <=? now)%nat))
                          pollFuel "dev" 4242 start))) = 26%nat)
  /\ (fst (waitForInitialization (hostReadyWhen (fun _ => false)) pollFuel
                                 "dev" 4242 start) =
        Return (Some (errors_New "failed to initialize container dev"))
      /\ count isPoll (trace (snd (waitForInitialization (hostReadyWhen (fun _ => false))
                                     pollFuel "dev" 4242 start))) = 26%nat
      /\ clock (snd (waitForInitialization (hostReadyWhen (fun _ => false))
                       pollFuel "dev" 4242 start)) = 25%nat).
Proof. vm_compute. repeat split. Qed.

Lemma enterResolved_entry_point_witness :
  fst (enterResolved (hostEntryPoint "init" 1) pollFuel "dev" ["/bin/zsh"; "-l"]
                     true true start) =
    Return (Some (errors_New
      ("container dev is too old and no longer supported " ++ nl
       ++ "Recreate it with Toolbox version 0.0.17 or newer." ++ nl)))
  /\ fst (enterResolved (hostEntryPoint "toolbox" 0) pollFuel "dev" ["/bin/zsh"; "-l"]
                        true true start) =
    Return (Some (errors_New "invalid entry point PID of container dev")).
Proof.
  split.
  - rewrite (proj1 (proj1 (enterResolved_entry_point (hostEntryPoint "init" 1)
               pollFuel "dev" ["/bin/zsh"; "-l"] true true "init" 1 start
               eq_refl eq_refl eq_refl) ltac:(discriminate))).
    reflexivity.
  - rewrite (proj2 (enterResolved_entry_point (hostEntryPoint "toolbox" 0)
               pollFuel "dev" ["/bin/zsh"; "-l"] true true "toolbox" 0 start
               eq_refl eq_refl eq_refl) eq_refl ltac:(lia)).
    reflexivity.
Defined.

Lemma classifyExitCode_other_witness :
  classifyExitCode (hostExec (1, None) true) "dev" ["/bin/zsh"; "-l"] 1 None start =
  (Return None, start).
Proof.
  apply (classifyExitCode_other (hostExec (1, None) true) "dev" ["/bin/zsh"; "-l"]
           1 None start); discriminate.
Defined.

(** C3, where the specification's wording fails: [podman exec] ends with
    exit code 1, and [enterContainer] returns nil, which is all its caller
    ever sees: nothing tells the run apart from one with exit code 0. *)
Lemma enterContainer_exit_code_counterexample :
  fst (enterContainer (hostExec (1, None) true) "dev" false "fedora-toolbox:33" "33"
                      ["/bin/zsh"; "-l"] true true false start) = Return None
  /\ reportsFailure
       (fst (enterContainer (hostExec (1, None) true) "dev" false "fedora-toolbox:33"
                            "33" ["/bin/zsh"; "-l"] true true false start)) = false
  /\ enterContainer (hostExec (1, None) true) "dev" false "fedora-toolbox:33" "33"
                    ["/bin/zsh"; "-l"] true true false start =
     enterContainer (hostExec (0, None) true) "dev" false "fedora-toolbox:33" "33"
                    ["/bin/zsh"; "-l"] true true false start.
Proof. vm_compute. repeat split. Qed.

Lemma classifyExitCode_zero_witness :
  classifyExitCode (hostExec (0, Some (errors_New "signal: killed")) true) "dev"
                   ["/bin/zsh"; "-l"] 0 (Some (errors_New "signal: killed")) start =
    (Panic "unexpected error: 'podman exec' finished successfully", start)
  /\ classifyExitCode (hostExec (0, None) true) "dev" ["/bin/zsh"; "-l"] 0 None start =
    (Return None, start).
Proof.
  split.
  - apply (proj1 (classifyExitCode_zero
                    (hostExec (0, Some (errors_New "signal: killed")) true) "dev"
                    ["/bin/zsh"; "-l"] (Some (errors_New "signal: killed")) start)
           (errors_New "signal: killed") eq_refl).
  - apply (proj1 (proj2 (classifyExitCode_zero (hostExec (0, None) true) "dev"
                           ["/bin/zsh"; "-l"] None start)) eq_refl).
Defined.

Lemma enter_invalid_name_witness :
  enter (hostStrictNames false) ["bad name"] start =
  (Return (Some (errors_New
     ("invalid argument for 'CONTAINER'" ++ nl
      ++ "Container names must match '[a-zA-Z0-9][a-zA-Z0-9_.-]*'" ++ nl
      ++ "Run 'toolbox --help' for usage."))),
   start).
Proof.
  apply (proj1 (enter_invalid_name (hostStrictNames false) ["bad name"]
                  (errors_New "invalid container name") start
                  eq_refl ltac:(discriminate) eq_refl)).
Defined.

End Examples.

(** * More of enter.go *)

(** ** What the part after the policy can record *)

Section AfterPolicy.

Variable w : World.

Lemma debugEach_afterPolicy (args : list string) :
  emitsOnly (fun e => afterPolicy e = true) (debugEach args).
Proof. induction args as [|arg rest IH]; cbn [debugEach]; emits. exact IH. Qed.

Lemma pollInitializedStamp_afterPolicy (fuel : nat) (container stamp : string)
    (timeout i : Z) :
  emitsOnly (fun e => afterPolicy e = true)
    (pollInitializedStamp w fuel container stamp timeout i).
Proof.
  revert i. induction fuel as [|fuel IH]; intros i; cbn [pollInitializedStamp].
  - intros st. exists []. cbn. now rewrite app_nil_r.
  - emits. apply IH.
Qed.

Lemma enterResolved_afterPolicy (fuel : nat) (container : string)
    (command : list string) (emitEscapeSequence fallbackToBash : bool) :
  emitsOnly (fun e => afterPolicy e = true)
    (enterResolved w fuel container command emitEscapeSequence fallbackToBash).
Proof.
  unfold enterResolved, startAndCheckEntryPoint, waitForInitialization,
    checkCommand, buildExecArgs, runExec, classifyExitCode, index0.
  emits;
    solve [ apply pollInitializedStamp_afterPolicy | apply debugEach_afterPolicy ].
Qed.

Lemma afterPolicy_counts (es : list Event) :
  Forall (fun e => afterPolicy e = true) es ->
  count isList es = 0%nat /\ count isCreate es = 0%nat /\ count isPrompt es = 0%nat.
Proof.
  intros H. repeat split; apply count_none; eapply Forall_impl; try exact H;
    intros [] He; cbn in *; congruence.
Qed.

End AfterPolicy.

(** ** The policy: the cases the fallback does not reach *)

Section PolicyMore.

Variable w : World.

(** X1: in pedantic mode a missing container ends the run with
    [utils.CreateErrorContainerNotFound]; the containers are not listed, the
    user is not asked and nothing is created.  Pedantic callers may leave
    [image] and [release] empty. *)
Theorem enterContainer_pedantic_missing
    container defaultContainer image release command emitEscapeSequence
    fallbackToBash e st :
  snd (ContainerExists w container) = Some e ->
  enterContainer w container defaultContainer image release command
                 emitEscapeSequence fallbackToBash true st =
  (Return (Some (CreateErrorContainerNotFound w container (executableBase w))),
   records (existsPrefix container
            ++ [Debug ("Container " ++ container ++ " not found")]) st).
Proof.
  intros He. unfold enterContainer, existencePolicy. run. rewrite He. run. tidy.
  reflexivity.
Qed.

(** X2: a permissive caller that leaves the image or the release empty makes
    the function panic before anything is logged or called; the image is
    looked at first. *)
Theorem enterContainer_permissive_needs_identity
    container defaultContainer image release command emitEscapeSequence
    fallbackToBash st :
  (image = "" ->
   enterContainer w container defaultContainer image release command
                  emitEscapeSequence fallbackToBash false st =
   (Panic "image not specified", st))
  /\ (image <> "" -> release = "" ->
      enterContainer w container defaultContainer image release command
                     emitEscapeSequence fallbackToBash false st =
      (Panic "release not specified", st)).
Proof.
  unfold enterContainer, existencePolicy. split.
  - intros ->. reflexivity.
  - intros Hi ->. apply String.eqb_neq in Hi. run. now rewrite Hi.
Qed.

(** X3: when the container exists, in either mode, the run is the part from
    line 234 on with the requested name; in the whole run the containers are
    never listed, the user is never asked and nothing is created. *)
Theorem enterContainer_existing
    container defaultContainer image release command emitEscapeSequence
    fallbackToBash pedantic st :
  pedantic = true \/ (image <> "" /\ release <> "") ->
  snd (ContainerExists w container) = None ->
  let run := enterContainer w container defaultContainer image release command
               emitEscapeSequence fallbackToBash pedantic st in
  run = enterResolved w pollFuel container command emitEscapeSequence fallbackToBash
          (records (existsPrefix container) st)
  /\ count isList (trace (snd run)) = count isList (trace st)
  /\ count isPrompt (trace (snd run)) = count isPrompt (trace st)
  /\ count isCreate (trace (snd run)) = count isCreate (trace st).
Proof.
  intros Hmode He run0.
  assert (E : run0 = enterResolved w pollFuel container command emitEscapeSequence
                       fallbackToBash (records (existsPrefix container) st)).
  { subst run0. unfold enterContainer, existencePolicy.
    destruct Hmode as [-> | [Hi Hr]].
    - run. rewrite He. run. tidy. reflexivity.
    - apply String.eqb_neq in Hi, Hr.
      destruct pedantic; run; rewrite ?Hi, ?Hr; run; rewrite He; run; tidy;
        reflexivity. }
  split; [exact E|]. rewrite E.
  destruct (enterResolved_afterPolicy w pollFuel container command
              emitEscapeSequence fallbackToBash (records (existsPrefix container) st))
    as [es [Et F]].
  destruct (afterPolicy_counts es F) as [Hl [Hc Hp]].
  rewrite Et, trace_records, !count_app, Hl, Hc, Hp. cbn. lia.
Qed.

(** X4: with no container at all and no [--assume-yes], a user who answers
    yes is asked once, the container is created once with the requested
    name, image and release, and the run goes on with that name. *)
Theorem enterContainer_prompt_accepted
    container defaultContainer image release command emitEscapeSequence
    fallbackToBash e st :
  image <> "" -> release <> "" ->
  snd (ContainerExists w container) = Some e ->
  listContainers w = ([], None) ->
  rootFlags_assumeYes w = false ->
  AskForConfirmation w createPrompt = true ->
  createContainer w container image release false = None ->
  let run := enterContainer w container defaultContainer image release command
               emitEscapeSequence fallbackToBash false st in
  run = enterResolved w pollFuel container command emitEscapeSequence fallbackToBash
          (records (missingPrefix container
                    ++ [foundN 0; CallAskForConfirmation createPrompt;
                        CallCreateContainer container image release false]) st)
  /\ count isPrompt (trace (snd run)) = S (count isPrompt (trace st))
  /\ count isCreate (trace (snd run)) = S (count isCreate (trace st)).
Proof.
  intros Hi Hr He Hl Hy Ha Hc run0. subst run0.
  rewrite enterContainer_after_policy,
    (existencePolicy_missing w container defaultContainer image release e st Hi Hr He),
    Hl.
  cbn [fst snd]. cbv zeta. rewrite Hy, Ha, Hc. tidy.
  split; [reflexivity|].
  match goal with
  | |- context [enterResolved w pollFuel container command emitEscapeSequence
                  fallbackToBash ?s] =>
    destruct (enterResolved_afterPolicy w pollFuel container command
                emitEscapeSequence fallbackToBash s) as [es [Et F]]
  end.
  destruct (afterPolicy_counts es F) as [_ [Hcr Hp]].
  cbn [List.length app missingPrefix] in *.
  rewrite Et, trace_records, !count_app, Hcr, Hp. cbn. lia.
Qed.

(** X5: when the creation fails, after [--assume-yes] or after a yes, its
    error is what the run returns, and the run ends there: the session helper
    is not called and the container is not started. *)
Theorem enterContainer_create_fails
    container defaultContainer image release command emitEscapeSequence
    fallbackToBash e createErr st :
  image <> "" -> release <> "" ->
  snd (ContainerExists w container) = Some e ->
  listContainers w = ([], None) ->
  rootFlags_assumeYes w = true \/ AskForConfirmation w createPrompt = true ->
  createContainer w container image release false = Some createErr ->
  let run := enterContainer w container defaultContainer image release command
               emitEscapeSequence fallbackToBash false st in
  fst run = Return (Some createErr)
  /\ trace (snd run) =
     (trace st ++ missingPrefix container ++ [foundN 0]
      ++ (if rootFlags_assumeYes w then [] else [CallAskForConfirmation createPrompt])
      ++ [CallCreateContainer container image release false])%list.
Proof.
  intros Hi Hr He Hl Hyes Hc run0. subst run0.
  rewrite enterContainer_after_policy,
    (existencePolicy_missing w container defaultContainer image release e st Hi Hr He),
    Hl.
  cbn [fst snd]. cbv zeta. rewrite Hc.
  destruct (rootFlags_assumeYes w).
  - tidy. split; reflexivity.
  - destruct Hyes as [Hy | Ha]; [discriminate|]. rewrite Ha. tidy.
    split; reflexivity.
Qed.

End PolicyMore.

(** ** From the session helper to the stamp *)

Section BeforeExec.

Variable w : World.

(** X6: a failure of the session helper, of the start, of the entry-point
    query or of [utils.GetRuntimeDirectory] is returned as it is, and the run
    stops at the failing step: nothing later is called, and in particular
    the stamp is never looked for.  A failed entry-point query wins over
    whatever name and PID came with it. *)
Theorem enterResolved_early_failures
    (fuel : nat) (container : string) (command : list string)
    (emitEscapeSequence fallbackToBash : bool) (st : State) :
  let run := enterResolved w fuel container command emitEscapeSequence
               fallbackToBash st in
  (forall e, callFlatpakSessionHelper w container = Some e ->
     run = (Return (Some e), records [CallFlatpakSessionHelper container] st))
  /\ (forall e, callFlatpakSessionHelper w container = None ->
        startContainer w container = Some e ->
        run = (Return (Some e), records (startPrefix container) st))
  /\ (forall entryPoint entryPointPID e,
        callFlatpakSessionHelper w container = None ->
        startContainer w container = None ->
        getEntryPointAndPID w container = (entryPoint, entryPointPID, Some e) ->
        run = (Return (Some e),
               records (startPrefix container
                        ++ [CallGetEntryPointAndPID container]) st))
  /\ (forall entryPointPID dir e,
        callFlatpakSessionHelper w container = None ->
        startContainer w container = None ->
        getEntryPointAndPID w container = ("toolbox", entryPointPID, None) ->
        0 < entryPointPID ->
        GetRuntimeDirectory w (currentUser w) = (dir, Some e) ->
        run = (Return (Some e),
               records (startPrefix container
                        ++ [CallGetEntryPointAndPID container;
                            Debug ("Waiting for container " ++ container
                                   ++ " to finish initializing")]) st)).
Proof.
  intros run0. subst run0.
  unfold enterResolved, startAndCheckEntryPoint, waitForInitialization.
  repeat split.
  - intros e Hh. run. rewrite Hh. reflexivity.
  - intros e Hh Hs. run. rewrite Hh, Hs. tidy. reflexivity.
  - intros entryPoint pid e Hh Hs Hg. run. rewrite Hh, Hs, Hg. run. tidy.
    reflexivity.
  - intros pid dir e Hh Hs Hg Hpid Hdir.
    assert (Hpos : (pid <=? 0) = false) by (apply Z.leb_gt; exact Hpid).
    run. rewrite Hh, Hs, Hg. run. cbn [String.eqb Ascii.eqb Bool.eqb negb].
    rewrite Hpos, Hdir. tidy. reflexivity.
Qed.

(** The loop, whatever the stamp does: it stops at the first second at
    which the stamp is there, or at the timeout. *)
Lemma pollInitializedStamp_cases (container stamp : string) :
  forall (fuel : nat) (i : Z) (st : State),
    0 <= i <= 25 ->
    (Z.to_nat (25 - i) < fuel)%nat ->
    exists n : nat,
      Z.of_nat n <= 25 - i
      /\ (forall j, (j < n)%nat -> PathExists w (clock st + j) stamp = false)
      /\ snd (pollInitializedStamp w fuel container stamp 25 i st) =
         {| clock := clock st + n;
            trace := trace st ++ pollRounds stamp n ++ [CallPathExists stamp] |}
      /\ ((PathExists w (clock st + n) stamp = true
           /\ fst (pollInitializedStamp w fuel container stamp 25 i st) = Val tt)
          \/ (Z.of_nat n = 25 - i
              /\ PathExists w (clock st + n) stamp = false
              /\ fst (pollInitializedStamp w fuel container stamp 25 i st) =
                 Return (Some (errTimeout container)))).
Proof.
  induction fuel as [|fuel IH]; intros i st Hi Hfuel; [lia|].
  cbn [pollInitializedStamp]. run.
  destruct (PathExists w (clock st) stamp) eqn:E0.
  - exists 0%nat. rewrite Nat.add_0_r. cbn [fst snd pollRounds app].
    repeat split; try lia; auto.
  - destruct (Z.eqb_spec i 25) as [-> | Hne].
    + exists 0%nat. rewrite Nat.add_0_r. cbn [fst snd pollRounds app].
      repeat split; try lia. right. repeat split; auto.
    + match goal with
      | |- context [pollInitializedStamp w fuel container stamp 25 (i + 1) ?s] =>
        destruct (IH (i + 1) s) as [n [Hn [Habs [Hst Hres]]]]; try lia
      end.
      unfold record in *. cbn [clock trace] in Habs, Hst, Hres |- *.
      exists (S n). split; [lia|]. split.
      * intros [|j] Hj; [now rewrite Nat.add_0_r|].
        replace (clock st + S j)%nat with (clock st + Z.to_nat 1 + j)%nat by lia.
        apply Habs. lia.
      * replace (clock st + S n)%nat with (clock st + Z.to_nat 1 + n)%nat by lia.
        split.
        -- rewrite Hst. cbn [pollRounds]. f_equal.
           rewrite <- !app_assoc. reflexivity.
        -- destruct Hres as [[Hp Hv] | [Hn' [Hp Hv]]]; [left | right];
             repeat split; auto; lia.
Qed.

Lemma count_pollRounds_other (p : Event -> bool) (stamp : string) (n : nat) :
  p (CallPathExists stamp) = false -> p (Sleep 1) = false ->
  count p (pollRounds stamp n) = 0%nat.
Proof.
  intros Hp Hs. unfold count. induction n as [|n IH]; cbn; [reflexivity|].
  now rewrite Hp, Hs.
Qed.

(** X7: whatever the stamp does, the wait looks for it at most 26 times and
    sleeps at most 25 seconds, one second between two looks.  It ends at the
    first second at which the stamp is there, and then it succeeds; it fails
    with "failed to initialize container ..." only when the stamp was missing
    at every second from 0 to 25. *)
Theorem waitForInitialization_bounded
    (container : string) (entryPointPID : Z) (dir : string) (st : State) :
  GetRuntimeDirectory w (currentUser w) = (dir, None) ->
  let stamp := stampPath dir entryPointPID in
  let run := waitForInitialization w pollFuel container entryPointPID st in
  exists n : nat,
    (n <= 25)%nat
    /\ (forall j, (j < n)%nat -> PathExists w (clock st + j) stamp = false)
    /\ clock (snd run) = (clock st + n)%nat
    /\ count isPoll (trace (snd run)) = (count isPoll (trace st) + S n)%nat
    /\ count isSleep (trace (snd run)) = (count isSleep (trace st) + n)%nat
    /\ ((fst run = Val tt /\ PathExists w (clock st + n) stamp = true)
        \/ (fst run = Return (Some (errTimeout container))
            /\ n = 25%nat
            /\ PathExists w (clock st + 25) stamp = false)).
Proof.
  intros Hdir stamp run0. subst run0.
  unfold waitForInitialization. run. rewrite Hdir. cbv zeta.
  fold (stampPath dir entryPointPID). fold stamp. tidy.
  match goal with
  | |- context [pollInitializedStamp w pollFuel container stamp 25 0 ?s] =>
    destruct (pollInitializedStamp_cases container stamp pollFuel 0 s)
      as [n [Hn [Habs [Hst Hres]]]];
      [lia | unfold pollFuel; cbn; lia | ];
      destruct (pollInitializedStamp w pollFuel container stamp 25 0 s)
        as [r st'] eqn:Ep
  end.
  cbn [fst snd clock trace records] in *.
  destruct (count_pollRounds stamp n) as [Cp Cs].
  exists n. split; [lia|]. split; [exact Habs|].
  destruct Hres as [[Hp ->] | [Hn' [Hp ->]]]; subst st'; cbn [fst snd clock trace record].
  - split; [reflexivity|]. rewrite <- !app_assoc, !count_app, Cp, Cs.
    repeat split; cbn; try lia. left. auto.
  - assert (n = 25%nat) by lia. subst n.
    split; [reflexivity|]. rewrite !count_app, Cp, Cs.
    repeat split; cbn; try lia. right. auto.
Qed.

End BeforeExec.

(** ** Running the command *)

Section Exec.

Variable w : World.

Lemma debugEach_run (args : list string) :
  forall st, debugEach args st = (Val tt, records (map Debug args) st).
Proof.
  induction args as [|arg rest IH]; intros st; cbn [debugEach map]; run.
  - now rewrite records_nil.
  - rewrite IH. tidy. reflexivity.
Qed.

Lemma count_map_Debug (p : Event -> bool) (args : list string) :
  (forall msg, p (Debug msg) = false) -> count p (map Debug args) = 0%nat.
Proof.
  intros Hp. unfold count. induction args as [|arg rest IH]; cbn; [reflexivity|].
  now rewrite Hp.
Qed.

(** Lines 332-346 in one equation. *)
Lemma runExec_run (container : string) (execArgs : list string)
    (emitEscapeSequence : bool) (st : State) :
  runExec w container execArgs emitEscapeSequence st =
  (Val (RunWithExitCode w "podman" execArgs),
   records ((if emitEscapeSequence then [Stdout (pushSequence w container)] else [])
            ++ [Debug ("Running in container " ++ container ++ ":"); Debug "podman"]
            ++ map Debug execArgs
            ++ [CallRunWithExitCode "podman" execArgs]
            ++ (if emitEscapeSequence then [Stdout (popSequence w)] else [])) st).
Proof.
  unfold runExec, pushSequence, popSequence.
  destruct emitEscapeSequence; run; rewrite debugEach_run; tidy;
    rewrite <- ?app_assoc; cbn [app]; try rewrite app_nil_r; reflexivity.
Qed.

(** X8: [podman] is run exactly once, with the vector it is given, and its
    exit code and error are handed back untouched.  With
    [emitEscapeSequence] the "push" sequence is recorded first and the "pop"
    sequence last, whatever [podman] returned, and these two are all that
    goes to standard output; without it nothing goes there. *)
Theorem runExec_brackets (container : string) (execArgs : list string)
    (emitEscapeSequence : bool) (st : State) :
  let run := runExec w container execArgs emitEscapeSequence st in
  fst run = Val (RunWithExitCode w "podman" execArgs)
  /\ count isExec (trace (snd run)) = S (count isExec (trace st))
  /\ In (CallRunWithExitCode "podman" execArgs) (trace (snd run))
  /\ (if emitEscapeSequence
      then exists middle,
             trace (snd run) =
             (trace st ++ [Stdout (pushSequence w container)] ++ middle
              ++ [Stdout (popSequence w)])%list
             /\ count isStdout middle = 0%nat
      else count isStdout (trace (snd run)) = count isStdout (trace st)).
Proof.
  intros run0. subst run0. rewrite runExec_run. cbn [fst snd].
  rewrite trace_records.
  pose proof (count_map_Debug isExec execArgs (fun _ => eq_refl)) as Hx.
  pose proof (count_map_Debug isStdout execArgs (fun _ => eq_refl)) as Ho.
  split; [reflexivity|]. split.
  { rewrite !count_app, Hx. destruct emitEscapeSequence; cbn; lia. }
  split.
  { rewrite !in_app_iff. right. right. right. right. left. now left. }
  destruct emitEscapeSequence.
  - exists ([Debug ("Running in container " ++ container ++ ":"); Debug "podman"]
            ++ map Debug execArgs
            ++ [CallRunWithExitCode "podman" execArgs])%list.
    split.
    + rewrite <- !app_assoc. reflexivity.
    + rewrite !count_app, Ho. reflexivity.
  - rewrite !count_app, Ho. cbn. lia.
Qed.

Lemma buildExecArgs_value (container : string) (command : list string) :
  exists execArgs,
    forall st, exists st',
      buildExecArgs w container command st = (Val execArgs, st')
      /\ count isExec (trace st') = count isExec (trace st).
Proof.
  unfold buildExecArgs.
  destruct (CheckVersion w "1.8.1"); eexists; intros st; run; tidy; (eexists; split; [reflexivity|]);
    rewrite trace_records, count_app; cbn; lia.
Qed.

(** X9: once the container is started, its entry point is in order and the
    stamp is there, the run is decided by [podman exec] alone: the command
    is the requested one when it exists in the container and [/bin/bash -l]
    when it does not and the fallback is allowed; the vector is the one the
    builder yields for that command; [podman] is run once; and the result is
    what the [switch] makes of its exit code, with that command named in the
    messages. *)
Theorem enterResolved_session
    (fuel : nat) (container command0 : string) (rest : list string)
    (emitEscapeSequence fallbackToBash : bool)
    (entryPointPID : Z) (dir : string) (st : State) :
  callFlatpakSessionHelper w container = None ->
  startContainer w container = None ->
  getEntryPointAndPID w container = ("toolbox", entryPointPID, None) ->
  0 < entryPointPID ->
  GetRuntimeDirectory w (currentUser w) = (dir, None) ->
  PathExists w (clock st) (stampPath dir entryPointPID) = true ->
  snd (isCommandPresent w container command0) = None \/ fallbackToBash = true ->
  let command :=
    match snd (isCommandPresent w container command0) with
    | None => command0 :: rest
    | Some _ => ["/bin/bash"; "-l"]
    end in
  exists execArgs st',
    (forall s, fst (buildExecArgs w container command s) = Val execArgs)
    /\ enterResolved w (S fuel) container (command0 :: rest) emitEscapeSequence
                     fallbackToBash st =
       classifyExitCode w container command
         (fst (RunWithExitCode w "podman" execArgs))
         (snd (RunWithExitCode w "podman" execArgs)) st'
    /\ count isExec (trace st') = S (count isExec (trace st)).
Proof.
  intros Hh Hs Hg Hpid Hdir Hstamp Hcmd command.
  assert (Hpos : (entryPointPID <=? 0) = false) by (apply Z.leb_gt; exact Hpid).
  destruct (buildExecArgs_value container command) as [execArgs Hb].
  exists execArgs.
  unfold enterResolved, startAndCheckEntryPoint, waitForInitialization, checkCommand.
  run. rewrite Hh, Hs, Hg. run. cbn [String.eqb Ascii.eqb Bool.eqb negb].
  rewrite Hpos, Hdir. cbv zeta. cbn [pollInitializedStamp]. run.
  cbn [clock record]. fold (stampPath dir entryPointPID). rewrite Hstamp.
  assert (Hfinish : forall s,
    count isExec (trace s) = count isExec (trace st) ->
    exists st',
      match buildExecArgs w container command s with
      | (Val a, s1) =>
        match runExec w container a emitEscapeSequence s1 with
        | (Val r, s2) => classifyExitCode w container command (fst r) (snd r) s2
        | (Return err, s2) => (Return err, s2)
        | (Panic msg, s2) => (Panic msg, s2)
        | (OutOfFuel, s2) => (OutOfFuel, s2)
        end
      | (Return err, s1) => (Return err, s1)
      | (Panic msg, s1) => (Panic msg, s1)
      | (OutOfFuel, s1) => (OutOfFuel, s1)
      end =
      classifyExitCode w container command
        (fst (RunWithExitCode w "podman" execArgs))
        (snd (RunWithExitCode w "podman" execArgs)) st'
      /\ count isExec (trace st') = S (count isExec (trace st))).
  { intros s Hs0. destruct (Hb s) as [s1 [Eb Hc1]]. rewrite Eb, runExec_run.
    eexists. split; [reflexivity|].
    rewrite trace_records, !count_app, Hc1, Hs0.
    rewrite (count_map_Debug isExec execArgs) by reflexivity.
    destruct emitEscapeSequence; cbn; lia. }
  assert (Hval : forall s, fst (buildExecArgs w container command s) = Val execArgs).
  { intros s. destruct (Hb s) as [s1 [Eb _]]. now rewrite Eb. }
  subst command.
  destruct (snd (isCommandPresent w container command0)) as [e|] eqn:Ep.
  - destruct Hcmd as [Hcmd | ->]; [discriminate|]. run.
    match goal with
    | |- context [buildExecArgs w container ["/bin/bash"; "-l"] ?s] =>
      destruct (Hfinish s) as [st' [E C]]
    end.
    { unfold record; cbn [trace]. rewrite !count_app. cbn. lia. }
    exists st'. auto.
  - match goal with
    | |- context [buildExecArgs w container (command0 :: rest) ?s] =>
      destruct (Hfinish s) as [st' [E C]]
    end.
    { unfold record; cbn [trace]. rewrite !count_app. cbn. lia. }
    exists st'. auto.
Qed.

(** X10: when the command does not exist in the container and the fallback
    is not allowed, the run returns "command ... not found in container ..."
    and [podman exec] is never run. *)
Theorem enterResolved_command_missing
    (fuel : nat) (container command0 : string) (rest : list string)
    (emitEscapeSequence : bool) (entryPointPID : Z) (dir : string)
    (e : error) (st : State) :
  callFlatpakSessionHelper w container = None ->
  startContainer w container = None ->
  getEntryPointAndPID w container = ("toolbox", entryPointPID, None) ->
  0 < entryPointPID ->
  GetRuntimeDirectory w (currentUser w) = (dir, None) ->
  PathExists w (clock st) (stampPath dir entryPointPID) = true ->
  snd (isCommandPresent w container command0) = Some e ->
  let run := enterResolved w (S fuel) container (command0 :: rest)
               emitEscapeSequence false st in
  fst run = Return (Some (errors_New
              ("command " ++ command0 ++ " not found in container " ++ container)))
  /\ count isExec (trace (snd run)) = count isExec (trace st).
Proof.
  intros Hh Hs Hg Hpid Hdir Hstamp Hcmd run0. subst run0.
  assert (Hpos : (entryPointPID <=? 0) = false) by (apply Z.leb_gt; exact Hpid).
  unfold enterResolved, startAndCheckEntryPoint, waitForInitialization, checkCommand.
  run. rewrite Hh, Hs, Hg. run. cbn [String.eqb Ascii.eqb Bool.eqb negb].
  rewrite Hpos, Hdir. cbv zeta. cbn [pollInitializedStamp]. run.
  cbn [clock record]. fold (stampPath dir entryPointPID). rewrite Hstamp, Hcmd.
  cbn [fst snd]. split; [reflexivity|].
  tidy. rewrite trace_records, count_app. cbn. lia.
Qed.

End Exec.

(** ** What a run does at most once, and in which order *)

Section Counting.

Variable w : World.

Lemma emitsAtMost_bind {A B : Type} (p : Event -> bool) (n1 n2 : nat)
    (m : M A) (k : A -> M B) :
  emitsAtMost p n1 m -> (forall a, emitsAtMost p n2 (k a)) ->
  emitsAtMost p (n1 + n2) (bind m k).
Proof.
  intros Hm Hk st. unfold bind.
  destruct (Hm st) as [es1 [E1 C1]].
  destruct (m st) as [[a|err|msg|] st1]; cbn in E1;
    try (exists es1; cbn; split; [exact E1 | lia]).
  destruct (Hk a st1) as [es2 [E2 C2]].
  exists (es1 ++ es2)%list. split.
  - now rewrite E2, E1, app_assoc.
  - rewrite count_app. lia.
Qed.

Lemma emitsAtMost_of_only {A : Type} (p : Event -> bool) (m : M A) :
  emitsOnly (fun e => p e = false) m -> emitsAtMost p 0 m.
Proof.
  intros H st. destruct (H st) as [es [E F]]. exists es. split; [exact E|].
  now rewrite (count_none p es F).
Qed.

Lemma startAndCheckEntryPoint_starts_once (container : string) :
  emitsAtMost isStart 1 (startAndCheckEntryPoint w container).
Proof.
  intros st. unfold startAndCheckEntryPoint. run.
  destruct (callFlatpakSessionHelper w container);
    [|destruct (startContainer w container);
      [|destruct (getEntryPointAndPID w container) as [[entryPoint pid] [e|]];
        [|run; destruct (entryPoint =? "toolbox")%string; cbn [negb];
          [destruct (pid <=? 0)|]]]];
    run; tidy; (eexists; split; [reflexivity | cbn; lia]).
Qed.

Lemma afterStart_no_start (fuel : nat) (container : string) (command : list string)
    (emitEscapeSequence fallbackToBash : bool) (entryPointPID : Z) :
  emitsOnly (fun e => isStart e = false)
    (waitForInitialization w fuel container entryPointPID ;;
     command <- checkCommand w container command fallbackToBash ;;
     execArgs <- buildExecArgs w container command ;;
     r <- runExec w container execArgs emitEscapeSequence ;;
     classifyExitCode w container command (fst r) (snd r)).
Proof.
  assert (Hd : forall args, emitsOnly (fun e => isStart e = false) (debugEach args)).
  { induction args as [|arg l IH]; cbn [debugEach]; emits. exact IH. }
  assert (Hp : forall fuel' c s t i,
             emitsOnly (fun e => isStart e = false)
                       (pollInitializedStamp w fuel' c s t i)).
  { induction fuel' as [|fuel' IH]; intros c s t i; cbn [pollInitializedStamp].
    - intros st. exists []. cbn. now rewrite app_nil_r.
    - emits. apply IH. }
  unfold waitForInitialization, checkCommand, buildExecArgs, runExec,
    classifyExitCode, index0.
  emits; solve [ apply Hp | apply Hd ].
Qed.

Lemma beforeExec_no_exec (fuel : nat) (container : string) (command : list string)
    (fallbackToBash : bool) :
  emitsOnly (fun e => isExec e = false) (startAndCheckEntryPoint w container)
  /\ (forall pid, emitsOnly (fun e => isExec e = false)
                    (waitForInitialization w fuel container pid))
  /\ emitsOnly (fun e => isExec e = false)
               (checkCommand w container command fallbackToBash)
  /\ (forall command', emitsOnly (fun e => isExec e = false)
                         (buildExecArgs w container command'))
  /\ (forall command' exitCode err,
        emitsOnly (fun e => isExec e = false)
                  (classifyExitCode w container command' exitCode err)).
Proof.
  assert (Hp : forall fuel' c s t i,
             emitsOnly (fun e => isExec e = false)
                       (pollInitializedStamp w fuel' c s t i)).
  { induction fuel' as [|fuel' IH]; intros c s t i; cbn [pollInitializedStamp].
    - intros st. exists []. cbn. now rewrite app_nil_r.
    - emits. apply IH. }
  repeat split; intros;
    unfold startAndCheckEntryPoint, waitForInitialization, checkCommand,
      buildExecArgs, classifyExitCode, index0;
    emits; apply Hp.
Qed.

Lemma runExec_execs_once (container : string) (execArgs : list string)
    (emitEscapeSequence : bool) :
  emitsAtMost isExec 1 (runExec w container execArgs emitEscapeSequence).
Proof.
  intros st. rewrite runExec_run. eexists. split; [reflexivity|].
  rewrite !count_app, (count_map_Debug isExec execArgs) by reflexivity.
  destruct emitEscapeSequence; cbn; lia.
Qed.

Lemma enterResolved_once (fuel : nat) (container : string) (command : list string)
    (emitEscapeSequence fallbackToBash : bool) :
  emitsAtMost isStart 1
    (enterResolved w fuel container command emitEscapeSequence fallbackToBash)
  /\ emitsAtMost isExec 1
       (enterResolved w fuel container command emitEscapeSequence fallbackToBash).
Proof.
  destruct (beforeExec_no_exec fuel container command fallbackToBash)
    as [Hs [Hw [Hc [Hb Hx]]]].
  unfold enterResolved. split.
  - apply (emitsAtMost_bind isStart 1 0).
    + apply startAndCheckEntryPoint_starts_once.
    + intros pid. apply emitsAtMost_of_only. apply afterStart_no_start.
  - apply (emitsAtMost_bind isExec 0 1); [now apply emitsAtMost_of_only|intros pid].
    apply (emitsAtMost_bind isExec 0 1); [now apply emitsAtMost_of_only|intros _].
    apply (emitsAtMost_bind isExec 0 1); [now apply emitsAtMost_of_only|intros cmd].
    apply (emitsAtMost_bind isExec 0 1); [now apply emitsAtMost_of_only|intros args].
    apply (emitsAtMost_bind isExec 1 0); [apply runExec_execs_once|intros r].
    now apply emitsAtMost_of_only.
Qed.

Lemma existencePolicy_counts container defaultContainer image release pedantic st :
  exists es,
    trace (snd (existencePolicy w container defaultContainer image release pedantic st))
    = (trace st ++ es)%list
    /\ (count isList es <= 1)%nat
    /\ (count isPrompt es <= 1)%nat
    /\ (count isCreate es <= 1)%nat
    /\ count isStart es = 0%nat
    /\ count isExec es = 0%nat.
Proof.
  assert (Hnil : exists es, trace st = (trace st ++ es)%list
                            /\ (count isList es <= 1)%nat
                            /\ (count isPrompt es <= 1)%nat
                            /\ (count isCreate es <= 1)%nat
                            /\ count isStart es = 0%nat
                            /\ count isExec es = 0%nat).
  { exists []. rewrite app_nil_r. cbn. repeat split; lia. }
  destruct (snd (ContainerExists w container)) as [e|] eqn:He.
  - destruct pedantic.
    + unfold existencePolicy. run. rewrite He. run. tidy.
      eexists; split; [reflexivity | cbn; repeat split; lia].
    + destruct (String.eqb_spec image "") as [-> | Hi]; [exact Hnil|].
      destruct (String.eqb_spec release "") as [-> | Hr].
      { unfold existencePolicy. run. apply String.eqb_neq in Hi. rewrite Hi.
        exact Hnil. }
      rewrite (existencePolicy_missing w container defaultContainer image release
                 e st Hi Hr He).
      destruct (listContainers w) as [containers [e'|]]; cbn [fst snd].
      { eexists; split; [reflexivity | cbn; repeat split; lia]. }
      cbv zeta.
      destruct containers as [|c0 [|c1 rest]];
        repeat match goal with
               | |- context [if ?b then _ else _] => destruct b
               | |- context [match createContainer w ?a ?b ?c ?d with _ => _ end] =>
                 destruct (createContainer w a b c d)
               | |- context [match Names ?c with _ => _ end] => destruct (Names c)
               end;
        tidy; (eexists; split; [reflexivity | cbn; repeat split; lia]).
  - unfold existencePolicy.
    destruct pedantic; run;
      [| destruct (image =? "")%string; [exact Hnil|];
         destruct (release =? "")%string; [exact Hnil|]; run ];
      rewrite He; run; tidy;
      (eexists; split; [reflexivity | cbn; repeat split; lia]).
Qed.

(** X11: in one run of [enterContainer], whatever the collaborators answer,
    the containers are listed at most once, the user is asked at most once,
    and at most one container is created, at most one is started, and
    [podman exec] is run at most once. *)
Theorem enterContainer_at_most_once
    container defaultContainer image release command emitEscapeSequence
    fallbackToBash pedantic st :
  let run := enterContainer w container defaultContainer image release command
               emitEscapeSequence fallbackToBash pedantic st in
  (count isList (trace (snd run)) <= count isList (trace st) + 1)%nat
  /\ (count isPrompt (trace (snd run)) <= count isPrompt (trace st) + 1)%nat
  /\ (count isCreate (trace (snd run)) <= count isCreate (trace st) + 1)%nat
  /\ (count isStart (trace (snd run)) <= count isStart (trace st) + 1)%nat
  /\ (count isExec (trace (snd run)) <= count isExec (trace st) + 1)%nat.
Proof.
  intros run0. subst run0. rewrite enterContainer_after_policy.
  destruct (existencePolicy_counts container defaultContainer image release
              pedantic st) as [es1 [E1 [Cl [Cp [Cc [Cs Cx]]]]]].
  destruct (existencePolicy w container defaultContainer image release pedantic st)
    as [[name|err|msg|] st1]; cbn [snd] in *;
    try (rewrite E1, !count_app; repeat split; lia).
  destruct (enterResolved_afterPolicy w pollFuel name command emitEscapeSequence
              fallbackToBash st1) as [es2 [E2 F2]].
  destruct (afterPolicy_counts es2 F2) as [Hl [Hc Hp]].
  destruct (enterResolved_once pollFuel name command emitEscapeSequence
              fallbackToBash) as [Hstart Hexec].
  destruct (Hstart st1) as [es3 [E3 C3]].
  destruct (Hexec st1) as [es4 [E4 C4]].
  repeat split.
  - rewrite E2, E1, !count_app. lia.
  - rewrite E2, E1, !count_app. lia.
  - rewrite E2, E1, !count_app. lia.
  - rewrite E3, E1, !count_app. lia.
  - rewrite E4, E1, !count_app. lia.
Qed.

End Counting.

Section Safety.

Variable w : World.

Lemma bind_no_exec {A B : Type} (m : M A) (k : A -> M B) (st : State) :
  emitsOnly (fun e => isExec e = false) m ->
  count isExec (trace (snd (bind m k st))) <> count isExec (trace st) ->
  exists a st1,
    m st = (Val a, st1)
    /\ bind m k st = k a st1
    /\ count isExec (trace st1) = count isExec (trace st).
Proof.
  intros Hm Hne. unfold bind in *.
  destruct (Hm st) as [es [E F]].
  assert (C : count isExec (trace (snd (m st))) = count isExec (trace st)).
  { rewrite E, count_app, (count_none isExec es F). lia. }
  destruct (m st) as [[a|err|msg|] st1]; cbn [snd] in *; try congruence.
  exists a, st1. auto.
Qed.

Lemma startAndCheckEntryPoint_val (container : string) (entryPointPID : Z)
    (st st1 : State) :
  startAndCheckEntryPoint w container st = (Val entryPointPID, st1) ->
  callFlatpakSessionHelper w container = None
  /\ startContainer w container = None
  /\ getEntryPointAndPID w container = ("toolbox", entryPointPID, None)
  /\ 0 < entryPointPID
  /\ clock st1 = clock st.
Proof.
  unfold startAndCheckEntryPoint. run.
  destruct (callFlatpakSessionHelper w container); [discriminate|].
  destruct (startContainer w container); [discriminate|].
  destruct (getEntryPointAndPID w container) as [[entryPoint pid] [e|]];
    [discriminate|]. run.
  destruct (String.eqb_spec entryPoint "toolbox") as [-> | Hne];
    [|discriminate]. cbn [negb].
  destruct (Z.leb_spec pid 0); [discriminate|].
  intros [= <- <-]. repeat split. exact H.
Qed.

Lemma waitForInitialization_val (container : string) (entryPointPID : Z)
    (st st1 : State) :
  waitForInitialization w pollFuel container entryPointPID st = (Val tt, st1) ->
  exists dir n,
    GetRuntimeDirectory w (currentUser w) = (dir, None)
    /\ (n <= 25)%nat
    /\ (forall j, (j < n)%nat ->
          PathExists w (clock st + j) (stampPath dir entryPointPID) = false)
    /\ PathExists w (clock st + n) (stampPath dir entryPointPID) = true.
Proof.
  unfold waitForInitialization. run.
  destruct (GetRuntimeDirectory w (currentUser w)) as [dir [e|]]; [discriminate|].
  cbv zeta. fold (stampPath dir entryPointPID).
  match goal with
  | |- context [pollInitializedStamp w pollFuel container ?stamp 25 0 ?s] =>
    destruct (pollInitializedStamp_cases w container stamp pollFuel 0 s)
      as [n [Hn [Habs [_ Hres]]]];
      [lia | unfold pollFuel; cbn; lia | ];
      destruct (pollInitializedStamp w pollFuel container stamp 25 0 s)
        as [[[]|err|msg|] st'] eqn:Ep
  end; try discriminate.
  intros _. cbn [fst clock record] in *.
  destruct Hres as [[Hp _] | [_ [_ Hv]]]; [|discriminate].
  exists dir, n. repeat split; auto. lia.
Qed.

Lemma checkCommand_val (container : string) (command command' : list string)
    (fallbackToBash : bool) (st st1 : State) :
  checkCommand w container command fallbackToBash st = (Val command', st1) ->
  exists command0 rest,
    command = command0 :: rest
    /\ (snd (isCommandPresent w container command0) = None \/ fallbackToBash = true)
    /\ command' = match snd (isCommandPresent w container command0) with
                  | None => command
                  | Some _ => ["/bin/bash"; "-l"]
                  end.
Proof.
  unfold checkCommand. destruct command as [|command0 rest]; run; [discriminate|].
  destruct (snd (isCommandPresent w container command0)) as [e|] eqn:Ep.
  - destruct fallbackToBash; run; [|discriminate].
    intros [= <- _]. exists command0, rest. rewrite Ep. repeat split; auto.
  - intros [= <- _]. exists command0, rest. rewrite Ep. repeat split; auto.
Qed.

(** X12: [podman exec] is run only in a container that was started, whose
    entry point is "toolbox" with a positive PID, whose stamp has been seen
    within 25 seconds, and for a command that exists there or may be replaced
    by bash.  In every other run nothing is executed. *)
Theorem enterResolved_exec_needs_ready
    (container : string) (command : list string)
    (emitEscapeSequence fallbackToBash : bool) (st : State) :
  count isExec
    (trace (snd (enterResolved w pollFuel container command emitEscapeSequence
                   fallbackToBash st)))
  <> count isExec (trace st) ->
  callFlatpakSessionHelper w container = None
  /\ startContainer w container = None
  /\ (exists entryPointPID dir n,
        getEntryPointAndPID w container = ("toolbox", entryPointPID, None)
        /\ 0 < entryPointPID
        /\ GetRuntimeDirectory w (currentUser w) = (dir, None)
        /\ (n <= 25)%nat
        /\ PathExists w (clock st + n) (stampPath dir entryPointPID) = true)
  /\ (exists command0 rest,
        command = command0 :: rest
        /\ (snd (isCommandPresent w container command0) = None
            \/ fallbackToBash = true)).
Proof.
  destruct (beforeExec_no_exec w pollFuel container command fallbackToBash)
    as [Hs [Hw [Hc _]]].
  unfold enterResolved. intros Hne.
  destruct (bind_no_exec _ _ st Hs Hne) as [pid [st1 [E1 [R1 C1]]]].
  rewrite R1, <- C1 in Hne.
  destruct (bind_no_exec _ _ st1 (Hw pid) Hne) as [[] [st2 [E2 [R2 C2]]]].
  rewrite R2, <- C2 in Hne.
  destruct (bind_no_exec _ _ st2 Hc Hne) as [command' [st3 [E3 _]]].
  destruct (startAndCheckEntryPoint_val _ _ _ _ E1) as [Hh [Hst [Hg [Hpid Hclock]]]].
  destruct (waitForInitialization_val _ _ _ _ E2) as [dir [n [Hdir [Hn [_ Hp]]]]].
  destruct (checkCommand_val _ _ _ _ _ _ E3) as [command0 [rest [-> [Hcmd _]]]].
  rewrite Hclock in Hp.
  split; [exact Hh|]. split; [exact Hst|]. split.
  - exists pid, dir, n. repeat split; assumption.
  - exists command0, rest. split; [reflexivity | exact Hcmd].
Qed.

End Safety.

(** ** Panics *)

Section Panics.

Variable w : World.
Variable P : string -> Prop.

Lemma panicsOnly_ret {A : Type} (a : A) : panicsOnly P (ret a).
Proof. intros st msg; discriminate. Qed.

Lemma panicsOnly_return {A : Type} (err : option error) : panicsOnly P (@return_ A err).
Proof. intros st msg; discriminate. Qed.

Lemma panicsOnly_panic {A : Type} (msg : string) : P msg -> panicsOnly P (@panic A msg).
Proof. intros H st msg' [= <-]. exact H. Qed.

Lemma panicsOnly_getClock : panicsOnly P getClock.
Proof. intros st msg; discriminate. Qed.

Lemma panicsOnly_emit (e : Event) : panicsOnly P (emit e).
Proof. intros st msg; discriminate. Qed.

Lemma panicsOnly_call {A : Type} (e : Event) (answer : A) : panicsOnly P (call e answer).
Proof. intros st msg; discriminate. Qed.

Lemma panicsOnly_sleep (seconds : Z) : panicsOnly P (sleep seconds).
Proof. intros st msg; discriminate. Qed.

Lemma panicsOnly_bind {A B : Type} (Q : A -> Prop) (m : M A) (k : A -> M B) :
  yields Q m -> panicsOnly P m -> (forall a, Q a -> panicsOnly P (k a)) ->
  panicsOnly P (bind m k).
Proof.
  intros Hy Hm Hk st msg. unfold bind.
  specialize (Hy st). specialize (Hm st).
  destruct (m st) as [[a|err|msg'|] st1]; cbn [fst] in *; try discriminate.
  - apply Hk. now apply Hy.
  - intros [= <-]. now apply Hm.
Qed.

Lemma panicsOnly_bind_any {A B : Type} (m : M A) (k : A -> M B) :
  panicsOnly P m -> (forall a, panicsOnly P (k a)) -> panicsOnly P (bind m k).
Proof.
  intros Hm Hk. apply (panicsOnly_bind (fun _ => True)); auto.
  intros st a _. exact I.
Qed.

Lemma panicsOnly_debugEach (args : list string) : panicsOnly P (debugEach args).
Proof.
  induction args as [|arg rest IH]; cbn [debugEach].
  - apply panicsOnly_ret.
  - apply panicsOnly_bind_any; [apply panicsOnly_emit | intros _; exact IH].
Qed.

Lemma panicsOnly_pollInitializedStamp (fuel : nat) (container stamp : string)
    (timeout i : Z) :
  panicsOnly P (pollInitializedStamp w fuel container stamp timeout i).
Proof.
  revert i. induction fuel as [|fuel IH]; intros i; cbn [pollInitializedStamp].
  - intros st msg; discriminate.
  - apply panicsOnly_bind_any; [apply panicsOnly_getClock | intros now].
    apply panicsOnly_bind_any; [apply panicsOnly_call | intros present].
    destruct present; [apply panicsOnly_ret|].
    destruct (i =? timeout); [apply panicsOnly_return|].
    apply panicsOnly_bind_any; [apply panicsOnly_sleep | intros _; apply IH].
Qed.

End Panics.

Ltac panics_step :=
  first
    [ apply panicsOnly_ret
    | apply panicsOnly_return
    | apply panicsOnly_getClock
    | apply panicsOnly_emit
    | apply panicsOnly_call
    | apply panicsOnly_sleep
    | apply panicsOnly_debugEach
    | apply panicsOnly_pollInitializedStamp
    | apply panicsOnly_bind_any; [ | intro ]
    | match goal with
      | |- panicsOnly _ (match ?x with _ => _ end) => destruct x
      end ].

Ltac panics := cbv zeta; repeat (panics_step; cbv zeta).

Section PanicsOfEnterContainer.

Variable w : World.

Lemma checkCommand_yields (container : string) (command : list string)
    (fallbackToBash : bool) :
  yields (fun command' => command' <> [])
         (checkCommand w container command fallbackToBash).
Proof.
  intros st command'. unfold checkCommand.
  destruct command as [|command0 rest]; run; [discriminate|].
  destruct (snd (isCommandPresent w container command0));
    [destruct fallbackToBash|]; run; intros [= <-]; discriminate.
Qed.

Lemma runExec_yields (container : string) (execArgs : list string)
    (emitEscapeSequence : bool) :
  yields (fun r => r = RunWithExitCode w "podman" execArgs)
         (runExec w container execArgs emitEscapeSequence).
Proof. intros st r. rewrite runExec_run. now intros [= <-]. Qed.

Lemma enterResolved_panics (fuel : nat) (container command0 : string)
    (rest : list string) (emitEscapeSequence fallbackToBash : bool) :
  panicsOnly (execPanicOnly w)
    (enterResolved w fuel container (command0 :: rest) emitEscapeSequence
                   fallbackToBash).
Proof.
  unfold enterResolved.
  apply panicsOnly_bind_any;
    [unfold startAndCheckEntryPoint; panics | intros pid].
  apply panicsOnly_bind_any;
    [unfold waitForInitialization; panics | intros _].
  apply (panicsOnly_bind _ _ _ _ (checkCommand_yields container (command0 :: rest)
                                    fallbackToBash)).
  { unfold checkCommand, index0. panics. }
  intros command' Hne.
  apply panicsOnly_bind_any; [unfold buildExecArgs; panics | intros execArgs].
  apply (panicsOnly_bind _ _ _ _ (runExec_yields container execArgs
                                    emitEscapeSequence)).
  { unfold runExec. panics. }
  intros r ->.
  destruct command' as [|c0 l]; [congruence|].
  unfold classifyExitCode, index0.
  destruct (RunWithExitCode w "podman" execArgs) as [exitCode err] eqn:Er.
  cbn [fst snd].
  apply panicsOnly_bind_any; [|intros o; panics].
  destruct (Z.eqb_spec exitCode 0) as [-> | H0].
  - destruct err as [e|]; [|apply panicsOnly_ret].
    apply panicsOnly_panic. split; [reflexivity|]. eauto.
  - panics.
Qed.

End PanicsOfEnterContainer.

Section PanicsOfPolicy.

Variable w : World.

Lemma existencePolicy_no_panic container defaultContainer image release pedantic
    st msg :
  pedantic = true \/ (image <> "" /\ release <> "") ->
  (forall c, In c (fst (listContainers w)) -> Names c <> []) ->
  fst (existencePolicy w container defaultContainer image release pedantic st)
  <> Panic msg.
Proof.
  intros Hmode Hnames.
  destruct (snd (ContainerExists w container)) as [e|] eqn:He.
  - destruct Hmode as [-> | [Hi Hr]].
    + unfold existencePolicy. run. rewrite He. discriminate.
    + destruct pedantic.
      * unfold existencePolicy. run. rewrite He. discriminate.
      * rewrite (existencePolicy_missing w container defaultContainer image release
                   e st Hi Hr He).
        destruct (listContainers w) as [containers [e'|]]; cbn [fst snd] in *;
          [discriminate|].
        cbv zeta.
        destruct containers as [|c0 [|c1 rest]];
          repeat match goal with
                 | |- context [if ?b then _ else _] => destruct b
                 | |- context [match createContainer w ?a ?b ?c ?d with _ => _ end] =>
                   destruct (createContainer w a b c d)
                 end;
          try discriminate.
        destruct (Names c0) eqn:En; [|discriminate].
        exfalso. apply (Hnames c0); [now left | exact En].
  - unfold existencePolicy.
    destruct Hmode as [-> | [Hi Hr]].
    + run. rewrite He. discriminate.
    + apply String.eqb_neq in Hi, Hr.
      destruct pedantic; run; rewrite ?Hi, ?Hr; run; rewrite He; discriminate.
Qed.

(** X13: called as its callers must call it (image and release given unless
    pedantic, a command with at least one word, and a listing in which every
    container has a name), [enterContainer] panics in one situation only:
    [podman exec] ended with exit code 0 and [shell.RunWithExitCode]
    reported an error all the same. *)
Theorem enterContainer_panics
    container defaultContainer image release command0 rest emitEscapeSequence
    fallbackToBash pedantic st msg :
  pedantic = true \/ (image <> "" /\ release <> "") ->
  (forall c, In c (fst (listContainers w)) -> Names c <> []) ->
  fst (enterContainer w container defaultContainer image release (command0 :: rest)
                      emitEscapeSequence fallbackToBash pedantic st) = Panic msg ->
  msg = execPanic
  /\ exists execArgs e, RunWithExitCode w "podman" execArgs = (0, Some e).
Proof.
  intros Hmode Hnames. rewrite enterContainer_after_policy.
  pose proof (existencePolicy_no_panic container defaultContainer image release
                pedantic st) as Hp.
  destruct (existencePolicy w container defaultContainer image release pedantic st)
    as [[name|err|msg'|] st1]; cbn [fst] in *; try discriminate.
  - apply enterResolved_panics.
  - intros _. exfalso. now apply (Hp msg' Hmode Hnames).
Qed.

End PanicsOfPolicy.

(** ** More of enter and enterHelp *)

Section EnterMore.

Variable w : World.

(** X14: on the host [enter] does nothing of its own that leaves a trace:
    either it fails on one of its checks with nothing recorded, or it is
    [enterContainer] started from the same state, in permissive mode, with
    the fallback to bash allowed and the command [$SHELL -l] for a non-empty
    [$SHELL]. *)
Theorem enter_on_host_cases (args : list string) (st : State) :
  IsInsideContainer w = false ->
  (exists e, enter w args st = (Return (Some e), st))
  \/ (Getenv w "SHELL" <> ""
      /\ exists container defaultContainer image release emitEscapeSequence,
           enter w args st =
           enterContainer w container defaultContainer image release
             [Getenv w "SHELL"; "-l"] emitEscapeSequence true false st).
Proof.
  intros Hhost. unfold enter. rewrite Hhost.
  destruct (match args with
            | arg0 :: _ => (arg0, "CONTAINER")
            | [] => if nonEmpty (enterFlags_container w)
                    then (enterFlags_container w, "--container")
                    else ("", "")
            end) as [c containerArg].
  run.
  destruct (nonEmpty c);
    [destruct (snd (IsContainerNameValid w c)); [left; eexists; reflexivity|]|];
    (destruct (nonEmpty (enterFlags_release w));
     [destruct (ParseRelease w (enterFlags_release w)) as [parsed [e|]];
      [left; eexists; reflexivity|]|]);
    cbn [fst snd];
    match goal with
    | |- context [ResolveContainerAndImageNames w ?a ?b ?r] =>
      destruct (ResolveContainerAndImageNames w a b r) as [[[c' image] release] [e|]]
    end;
    try (left; eexists; reflexivity);
    (destruct (String.eqb_spec (Getenv w "SHELL") "") as [Hs | Hs];
     [left; eexists; reflexivity|]);
    (destruct (GetHostID w) as [hostID [e|]]; [left; eexists; reflexivity|]);
    (destruct (GetHostVariantID w) as [hostVariantID [e|]];
     [left; eexists; reflexivity|]);
    right; (split; [exact Hs|]); do 5 eexists; reflexivity.
Qed.

(** X15: on the host, with the name check passed, a [--release] that
    [utils.ParseRelease] rejects makes [enter] return
    [utils.CreateErrorInvalidRelease(executableBase)], whatever error the
    parser gave; nothing has been recorded by then. *)
Theorem enter_invalid_release (args : list string) (e : error) (st : State) :
  IsInsideContainer w = false ->
  (suppliedName w args = ""
   \/ snd (IsContainerNameValid w (suppliedName w args)) = None) ->
  enterFlags_release w <> "" ->
  snd (ParseRelease w (enterFlags_release w)) = Some e ->
  enter w args st =
  (Return (Some (CreateErrorInvalidRelease w (executableBase w))), st).
Proof.
  intros Hhost Hname Hrel Hparse.
  apply String.eqb_neq in Hrel.
  unfold enter. rewrite Hhost.
  assert (Hc : (let '(c, _) :=
                  match args with
                  | arg0 :: _ => (arg0, "CONTAINER")
                  | [] => if nonEmpty (enterFlags_container w)
                          then (enterFlags_container w, "--container")
                          else ("", "")
                  end in c) = suppliedName w args).
  { destruct args as [|arg0 rest]; cbn [suppliedName]; [|reflexivity].
    unfold nonEmpty. destruct (String.eqb_spec (enterFlags_container w) "") as [->|];
      reflexivity. }
  destruct (match args with
            | arg0 :: _ => (arg0, "CONTAINER")
            | [] => if nonEmpty (enterFlags_container w)
                    then (enterFlags_container w, "--container")
                    else ("", "")
            end) as [c containerArg].
  cbv zeta in Hc. subst c. run.
  assert (Hr : nonEmpty (enterFlags_release w) = true)
    by (unfold nonEmpty; now rewrite Hrel).
  destruct (ParseRelease w (enterFlags_release w)) as [parsed o].
  cbn [snd] in Hparse. subst o.
  destruct Hname as [Hn | Hn].
  - rewrite Hn. cbn [nonEmpty String.eqb negb]. now rewrite Hr.
  - rewrite Hn. destruct (nonEmpty (suppliedName w args)); now rewrite Hr.
Qed.

(** X16: inside a container [enter] never looks at its arguments or flags.
    In a container that is not a toolbox it returns "this is not a toolbox
    container" and records nothing; in a toolbox it forwards the command to
    the host once and returns the error of that call, nil included. *)
Theorem enter_inside_container (args : list string) (st : State) :
  IsInsideContainer w = true ->
  (IsInsideToolboxContainer w = false ->
   enter w args st =
   (Return (Some (errors_New "this is not a toolbox container")), st))
  /\ (IsInsideToolboxContainer w = true ->
      enter w args st =
      (Return (snd (ForwardToHost w)), records [CallForwardToHost] st)).
Proof.
  intros Hin. unfold enter. rewrite Hin. split; intros Ht; rewrite Ht; run.
  - reflexivity.
  - destruct (snd (ForwardToHost w)); reflexivity.
Qed.

Variable ShowManual : string -> option error.

(** X17: [enterHelp] has no result and reports every failure on standard
    error as "Error: <message>".  Inside a container it does what [enter]
    does there and prints the error [enter] would return; on the host it
    asks for the manual page "toolbox-enter" and prints the error of that
    call, if any.  It never reaches podman. *)
Theorem enterHelp_reports (args : list string) (st : State) :
  let help := enterHelp w ShowManual args st in
  fst help = Val tt
  /\ count isEngineCall (trace (snd help)) = count isEngineCall (trace st)
  /\ (IsInsideContainer w = true ->
      trace (snd help) =
      (trace (snd (enter w args st))
       ++ match fst (enter w args st) with
          | Return (Some e) => [Stderr ("Error: " ++ Error e ++ nl)]
          | _ => []
          end)%list)
  /\ (IsInsideContainer w = false ->
      snd help =
      records match ShowManual "toolbox-enter" with
              | Some e => [Stderr ("Error: " ++ Error e ++ nl)]
              | None => []
              end st).
Proof.
  intros help. subst help. unfold enterHelp, enter.
  destruct (IsInsideContainer w).
  - destruct (IsInsideToolboxContainer w); run.
    + destruct (snd (ForwardToHost w)); cbn [fst snd trace record];
        repeat split; try discriminate; try reflexivity;
        rewrite ?count_app; cbn; try lia;
        intros _; rewrite <- ?app_assoc, ?app_nil_r; reflexivity.
    + cbn [fst snd trace record]. repeat split; try discriminate.
      * rewrite count_app. cbn. lia.
  - destruct (ShowManual "toolbox-enter"); run; cbn [fst snd trace record];
      repeat split; try discriminate; try reflexivity;
      rewrite ?count_app; cbn; try lia;
      intros _; now rewrite records_nil.
Qed.

End EnterMore.

Section EnterEnvironment.

Variable w : World.

(** X18: on the host, once the name and the release have passed their
    checks, [enter] fails before anything is recorded when the names cannot
    be resolved (the resolver's error is returned as it is), when [$SHELL] is
    empty, or when the host ID or the host VARIANT_ID cannot be read (a fixed
    message replaces the reader's error), in this order. *)
Theorem enter_environment_failures
    (args : list string) (parsed : string) (st : State) :
  IsInsideContainer w = false ->
  (suppliedName w args = ""
   \/ snd (IsContainerNameValid w (suppliedName w args)) = None) ->
  ((enterFlags_release w = "" /\ parsed = "")
   \/ (enterFlags_release w <> "" /\
       ParseRelease w (enterFlags_release w) = (parsed, None))) ->
  let resolved := ResolveContainerAndImageNames w (suppliedName w args) "" parsed in
  (forall e, snd resolved = Some e -> enter w args st = (Return (Some e), st))
  /\ (snd resolved = None -> Getenv w "SHELL" = "" ->
      enter w args st =
      (Return (Some (errors_New "failed to get the current user's default shell")),
       st))
  /\ (forall e, snd resolved = None -> Getenv w "SHELL" <> "" ->
        snd (GetHostID w) = Some e ->
        enter w args st =
        (Return (Some (errors_New "failed to get the host ID")), st))
  /\ (forall e, snd resolved = None -> Getenv w "SHELL" <> "" ->
        snd (GetHostID w) = None ->
        snd (GetHostVariantID w) = Some e ->
        enter w args st =
        (Return (Some (errors_New "failed to get the host VARIANT_ID")), st)).
Proof.
  intros Hhost Hname Hrel resolved.
  assert (E : enter w args st =
    match resolved with
    | (_, Some e) => (Return (Some e), st)
    | (container, image, release, None) =>
      if (Getenv w "SHELL" =? "")%string then
        (Return (Some (errors_New "failed to get the current user's default shell")),
         st)
      else
        match GetHostID w with
        | (_, Some _) => (Return (Some (errors_New "failed to get the host ID")), st)
        | (hostID, None) =>
          match GetHostVariantID w with
          | (_, Some _) =>
            (Return (Some (errors_New "failed to get the host VARIANT_ID")), st)
          | (hostVariantID, None) =>
            enterContainer w container
              (negb (nonEmpty (suppliedName w args) || nonEmpty (enterFlags_release w)))
              image release [Getenv w "SHELL"; "-l"]
              ((hostID =? "fedora")%string
               && ((hostVariantID =? "silverblue")%string
                   || (hostVariantID =? "workstation")%string))
              true false st
          end
        end
    end).
  { subst resolved. unfold enter. rewrite Hhost.
    assert (Hc : (let '(c, _) :=
                    match args with
                    | arg0 :: _ => (arg0, "CONTAINER")
                    | [] => if nonEmpty (enterFlags_container w)
                            then (enterFlags_container w, "--container")
                            else ("", "")
                    end in c) = suppliedName w args).
    { destruct args as [|arg0 rest]; cbn [suppliedName]; [|reflexivity].
      unfold nonEmpty.
      destruct (String.eqb_spec (enterFlags_container w) "") as [->|]; reflexivity. }
    destruct (match args with
              | arg0 :: _ => (arg0, "CONTAINER")
              | [] => if nonEmpty (enterFlags_container w)
                      then (enterFlags_container w, "--container")
                      else ("", "")
              end) as [c containerArg].
    cbv zeta in Hc. subst c. run.
    assert (Hrel' :
      (nonEmpty (enterFlags_release w) = false /\ parsed = "")
      \/ (nonEmpty (enterFlags_release w) = true /\
          ParseRelease w (enterFlags_release w) = (parsed, None))).
    { unfold nonEmpty. destruct Hrel as [[Hr ->] | [Hr Hp]]; [left | right].
      - now rewrite Hr.
      - apply String.eqb_neq in Hr. now rewrite Hr. }
    assert (Hname' :
      nonEmpty (suppliedName w args) = false
      \/ snd (IsContainerNameValid w (suppliedName w args)) = None).
    { destruct Hname as [Hn | Hn]; [left | right]; [now rewrite Hn | exact Hn]. }
    destruct Hname' as [Hn | Hn]; rewrite Hn;
      destruct (nonEmpty (suppliedName w args)); try discriminate Hn;
      cbn [orb negb];
      (destruct Hrel' as [[Hr ->] | [Hr Hp]]; rewrite Hr; cbn [fst snd orb negb];
       [ | rewrite Hp; cbn [fst snd] ];
       destruct (ResolveContainerAndImageNames w (suppliedName w args) "" _)
         as [[[c' image] release] [e|]]; try reflexivity;
       destruct (Getenv w "SHELL" =? "")%string; try reflexivity;
       destruct (GetHostID w) as [hostID [e|]]; try reflexivity;
       destruct (GetHostVariantID w) as [hostVariantID [e|]]; reflexivity). }
  rewrite E. clear E.
  destruct resolved as [[[c' image] release] [e0|]]; cbn [snd].
  - repeat split; intros; try discriminate. congruence.
  - repeat split.
    + intros e He. discriminate.
    + intros _ ->. reflexivity.
    + intros e _ Hs Hid. apply String.eqb_neq in Hs. rewrite Hs.
      destruct (GetHostID w) as [hostID o]. cbn [snd] in Hid. now subst o.
    + intros e _ Hs Hid Hvar. apply String.eqb_neq in Hs. rewrite Hs.
      destruct (GetHostID w) as [hostID o]. cbn [snd] in Hid. subst o.
      destruct (GetHostVariantID w) as [variant o]. cbn [snd] in Hvar. now subst o.
Qed.

End EnterEnvironment.

(** ** These statements on the sample hosts *)

Section MoreExamples.

Import Sample Faulty.

Lemma enterContainer_pedantic_missing_witness :
  enterContainer (hostWith [dev]) "work" false "" "" ["/bin/zsh"; "-l"]
                 false false true start =
  (Return (Some (CreateErrorContainerNotFound (hostWith [dev]) "work"
                   (executableBase (hostWith [dev])))),
   records (existsPrefix "work"
            ++ [Debug ("Container " ++ "work" ++ " not found")]) start).
Proof.
  exact (enterContainer_pedantic_missing (hostWith [dev]) "work" false "" ""
           ["/bin/zsh"; "-l"] false false (errors_New "no such container") start
           eq_refl).
Defined.

Lemma enterContainer_permissive_needs_identity_witness :
  enterContainer ready "dev" false "" "33" ["/bin/zsh"; "-l"] true true false start =
    (Panic "image not specified", start)
  /\ enterContainer ready "dev" false "fedora-toolbox:33" "" ["/bin/zsh"; "-l"]
                    true true false start =
     (Panic "release not specified", start).
Proof.
  pose proof (enterContainer_permissive_needs_identity ready "dev" false "" "33"
                ["/bin/zsh"; "-l"] true true start) as H1.
  pose proof (enterContainer_permissive_needs_identity ready "dev" false
                "fedora-toolbox:33" "" ["/bin/zsh"; "-l"] true true start) as H2.
  split.
  - exact (proj1 H1 eq_refl).
  - apply (proj2 H2); [discriminate | reflexivity].
Defined.

Lemma enterContainer_existing_witness :
  enterContainer ready "dev" false "fedora-toolbox:33" "33" ["/bin/zsh"; "-l"]
                 true true false start =
  enterResolved ready pollFuel "dev" ["/bin/zsh"; "-l"] true true
                (records (existsPrefix "dev") start).
Proof.
  pose proof (enterContainer_existing ready "dev" false "fedora-toolbox:33" "33"
                ["/bin/zsh"; "-l"] true true false start) as H.
  assert (H1 : false = true \/ ("fedora-toolbox:33" <> "" /\ "33" <> ""))
    by (right; split; discriminate).
  specialize (H H1 eq_refl). cbv zeta in H. exact (proj1 H).
Defined.

Lemma enterContainer_prompt_accepted_witness :
  count isPrompt
    (trace (snd (enterContainer answersYes "fedora-toolbox-33" true
                   "fedora-toolbox:33" "33" ["/bin/zsh"; "-l"] true true false start)))
  = S (count isPrompt (trace start))
  /\ count isCreate
       (trace (snd (enterContainer answersYes "fedora-toolbox-33" true
                      "fedora-toolbox:33" "33" ["/bin/zsh"; "-l"] true true false
                      start)))
     = S (count isCreate (trace start)).
Proof.
  pose proof (enterContainer_prompt_accepted answersYes "fedora-toolbox-33" true
                "fedora-toolbox:33" "33" ["/bin/zsh"; "-l"] true true
                (errors_New "no such container") start) as H.
  assert (Hi : "fedora-toolbox:33" <> "") by discriminate.
  assert (Hr : "33" <> "") by discriminate.
  specialize (H Hi Hr eq_refl eq_refl eq_refl eq_refl eq_refl).
  cbv zeta in H. exact (proj2 H).
Defined.

Lemma enterContainer_create_fails_witness :
  fst (enterContainer createFails "fedora-toolbox-33" true "fedora-toolbox:33" "33"
                      ["/bin/zsh"; "-l"] true true false start) =
  Return (Some boom).
Proof.
  pose proof (enterContainer_create_fails createFails "fedora-toolbox-33" true
                "fedora-toolbox:33" "33" ["/bin/zsh"; "-l"] true true
                (errors_New "no such container") boom start) as H.
  assert (Hi : "fedora-toolbox:33" <> "") by discriminate.
  assert (Hr : "33" <> "") by discriminate.
  assert (Hy : rootFlags_assumeYes createFails = true
               \/ AskForConfirmation createFails createPrompt = true)
    by (left; reflexivity).
  specialize (H Hi Hr eq_refl eq_refl Hy eq_refl).
  cbv zeta in H. exact (proj1 H).
Defined.

Lemma enterResolved_early_failures_witness :
  enterResolved helperFails pollFuel "dev" ["/bin/zsh"; "-l"] true true start =
    (Return (Some boom), records [CallFlatpakSessionHelper "dev"] start)
  /\ enterResolved noRuntimeDir pollFuel "dev" ["/bin/zsh"; "-l"] true true start =
     (Return (Some boom),
      records (startPrefix "dev"
               ++ [CallGetEntryPointAndPID "dev";
                   Debug ("Waiting for container " ++ "dev"
                          ++ " to finish initializing")]) start).
Proof.
  pose proof (enterResolved_early_failures helperFails pollFuel "dev"
                ["/bin/zsh"; "-l"] true true start) as H1.
  pose proof (enterResolved_early_failures noRuntimeDir pollFuel "dev"
                ["/bin/zsh"; "-l"] true true start) as H2.
  cbv zeta in H1, H2. split.
  - exact (proj1 H1 boom eq_refl).
  - apply (proj2 (proj2 (proj2 H2)) 4242 "" boom); reflexivity.
Defined.

Lemma waitForInitialization_bounded_witness :
  exists n : nat,
    (n <= 25)%nat
    /\ clock (snd (waitForInitialization (hostReadyWhen (fun now => (3 <=? now)%nat))
                     pollFuel "dev" 4242 start)) = (clock start + n)%nat.
Proof.
  pose proof (waitForInitialization_bounded
                (hostReadyWhen (fun now => (3 <=? now)%nat))
                "dev" 4242 "/run/user/1000/toolbox" start eq_refl) as H.
  cbv zeta in H. destruct H as [n [Hn [_ [Hc _]]]].
  exists n. split; [exact Hn | exact Hc].
Defined.

Lemma enterResolved_session_witness :
  exists execArgs st',
    enterResolved (hostExec (3, None) true) 26 "dev" ["/bin/zsh"; "-l"]
                  true true start =
    classifyExitCode (hostExec (3, None) true) "dev"
      match snd (isCommandPresent (hostExec (3, None) true) "dev" "/bin/zsh") with
      | None => ["/bin/zsh"; "-l"]
      | Some _ => ["/bin/bash"; "-l"]
      end
      (fst (RunWithExitCode (hostExec (3, None) true) "podman" execArgs))
      (snd (RunWithExitCode (hostExec (3, None) true) "podman" execArgs)) st'.
Proof.
  pose proof (enterResolved_session (hostExec (3, None) true) 25 "dev" "/bin/zsh"
                ["-l"] true true 4242 "/run/user/1000/toolbox" start) as H.
  assert (Hpid : 0 < 4242) by lia.
  assert (Hc : snd (isCommandPresent (hostExec (3, None) true) "dev" "/bin/zsh") = None
               \/ true = true) by (left; reflexivity).
  specialize (H eq_refl eq_refl eq_refl Hpid eq_refl eq_refl Hc).
  cbv zeta in H. destruct H as [execArgs [st' [_ [E _]]]].
  exists execArgs, st'. exact E.
Defined.

Lemma enterResolved_command_missing_witness :
  fst (enterResolved commandMissing 26 "dev" ["/bin/zsh"; "-l"] true false start) =
  Return (Some (errors_New ("command " ++ "/bin/zsh" ++ " not found in container "
                            ++ "dev"))).
Proof.
  pose proof (enterResolved_command_missing commandMissing 25 "dev" "/bin/zsh"
                ["-l"] true 4242 "/run/user/1000/toolbox" boom start) as H.
  assert (Hpid : 0 < 4242) by lia.
  specialize (H eq_refl eq_refl eq_refl Hpid eq_refl eq_refl eq_refl).
  cbv zeta in H. exact (proj1 H).
Defined.

Lemma enterResolved_exec_needs_ready_witness :
  callFlatpakSessionHelper ready "dev" = None
  /\ startContainer ready "dev" = None.
Proof.
  pose proof (enterResolved_exec_needs_ready ready "dev" ["/bin/zsh"; "-l"] true true
                start) as H.
  assert (Hne : count isExec
                  (trace (snd (enterResolved ready pollFuel "dev" ["/bin/zsh"; "-l"]
                                 true true start)))
                <> count isExec (trace start))
    by (vm_compute; discriminate).
  specialize (H Hne). destruct H as [Hh [Hs _]].
  split; [exact Hh | exact Hs].
Defined.

Lemma enterContainer_panics_witness :
  execPanic = execPanic
  /\ exists execArgs e,
       RunWithExitCode (hostExec (0, Some boom) true) "podman" execArgs = (0, Some e).
Proof.
  pose proof (enterContainer_panics (hostExec (0, Some boom) true) "dev" false
                "fedora-toolbox:33" "33" "/bin/zsh" ["-l"] true true false start
                execPanic) as H.
  assert (H1 : false = true \/ ("fedora-toolbox:33" <> "" /\ "33" <> ""))
    by (right; split; discriminate).
  assert (H2 : forall c, In c (fst (listContainers (hostExec (0, Some boom) true))) ->
                         Names c <> [])
    by (intros c [<- | []]; discriminate).
  assert (H3 : fst (enterContainer (hostExec (0, Some boom) true) "dev" false
                      "fedora-toolbox:33" "33" ["/bin/zsh"; "-l"] true true false
                      start) = Panic execPanic)
    by (vm_compute; reflexivity).
  exact (H H1 H2 H3).
Defined.

Lemma enter_on_host_cases_witness :
  (exists e, enter noShell [] start = (Return (Some e), start))
  \/ (Getenv noShell "SHELL" <> ""
      /\ exists container defaultContainer image release emitEscapeSequence,
           enter noShell [] start =
           enterContainer noShell container defaultContainer image release
             [Getenv noShell "SHELL"; "-l"] emitEscapeSequence true false start).
Proof. exact (enter_on_host_cases noShell [] start eq_refl). Defined.

Lemma enter_invalid_release_witness :
  enter badRelease [] start =
  (Return (Some (CreateErrorInvalidRelease badRelease (executableBase badRelease))),
   start).
Proof.
  pose proof (enter_invalid_release badRelease [] boom start) as H.
  assert (Hn : suppliedName badRelease [] = ""
               \/ snd (IsContainerNameValid badRelease (suppliedName badRelease []))
                  = None) by (left; reflexivity).
  assert (Hr : enterFlags_release badRelease <> "") by discriminate.
  exact (H eq_refl Hn Hr eq_refl).
Defined.

Lemma enter_inside_container_witness :
  enter insideOther ["bad name"] start =
    (Return (Some (errors_New "this is not a toolbox container")), start)
  /\ enter (hostStrictNames true) ["bad name"] start =
     (Return (snd (ForwardToHost (hostStrictNames true))),
      records [CallForwardToHost] start).
Proof.
  pose proof (enter_inside_container insideOther ["bad name"] start eq_refl) as H1.
  pose proof (enter_inside_container (hostStrictNames true) ["bad name"] start
                eq_refl) as H2.
  split.
  - exact (proj1 H1 eq_refl).
  - exact (proj2 H2 eq_refl).
Defined.

Lemma enterHelp_reports_witness :
  snd (enterHelp (hostWith [dev]) noManual [] start) =
    records match noManual "toolbox-enter" with
            | Some e => [Stderr ("Error: " ++ Error e ++ nl)]
            | None => []
            end start.
Proof.
  pose proof (enterHelp_reports (hostWith [dev]) noManual [] start) as H.
  cbv zeta in H. exact (proj2 (proj2 (proj2 H)) eq_refl).
Defined.

Lemma enter_environment_failures_witness :
  enter noShell [] start =
  (Return (Some (errors_New "failed to get the current user's default shell")),
   start).
Proof.
  pose proof (enter_environment_failures noShell [] "" start) as H.
  assert (Hn : suppliedName noShell [] = ""
               \/ snd (IsContainerNameValid noShell (suppliedName noShell [])) = None)
    by (left; reflexivity).
  assert (Hr : (enterFlags_release noShell = "" /\ "" = "")
               \/ (enterFlags_release noShell <> "" /\
                   ParseRelease noShell (enterFlags_release noShell) = ("", None)))
    by (left; split; reflexivity).
  specialize (H eq_refl Hn Hr). cbv zeta in H.
  exact (proj1 (proj2 H) eq_refl eq_refl).
Defined.

Lemma enter_on_host_witness :
  enter (hostWith [dev]) [] start =
  enterContainer (hostWith [dev]) "fedora-toolbox-33"
    (negb (nonEmpty (suppliedName (hostWith [dev]) [])
           || nonEmpty (enterFlags_release (hostWith [dev]))))
    "fedora-toolbox:33" "33" [Getenv (hostWith [dev]) "SHELL"; "-l"]
    (("fedora" =? "fedora")%string
     && (("silverblue" =? "silverblue")%string
         || ("silverblue" =? "workstation")%string))
    true false start.
Proof.
  pose proof (enter_on_host (hostWith [dev]) [] "" "fedora-toolbox-33"
                "fedora-toolbox:33" "33" "fedora" "silverblue" start) as H.
  assert (Hn : suppliedName (hostWith [dev]) [] = ""
               \/ snd (IsContainerNameValid (hostWith [dev])
                         (suppliedName (hostWith [dev]) [])) = None)
    by (left; reflexivity).
  assert (Hr : (enterFlags_release (hostWith [dev]) = "" /\ "" = "")
               \/ (enterFlags_release (hostWith [dev]) <> "" /\
                   ParseRelease (hostWith [dev]) (enterFlags_release (hostWith [dev]))
                   = ("", None)))
    by (left; split; reflexivity).
  assert (Hs : Getenv (hostWith [dev]) "SHELL" <> "") by discriminate.
  exact (H eq_refl Hn Hr eq_refl Hs eq_refl eq_refl).
Defined.

(** Line 93 tests the validator's error and nothing else: a name the
    validator calls invalid without reporting an error passes the check and
    is handed to podman. *)
Lemma enter_validator_verdict_unused :
  IsContainerNameValid verdictOnly "bad name" = (false, None)
  /\ fst (enter verdictOnly ["bad name"] start) = Return None
  /\ In (CallStartContainer "bad name")
        (trace (snd (enter verdictOnly ["bad name"] start))).
Proof. vm_compute. repeat split. tauto. Qed.

End MoreExamples.
